(** * The location screen of the delivery app: tracking session, debounced
      reverse geocoding and unmount cleanup

    Source: [src/app/(tabs)/location.tsx], component [LocationScreen]
    (lines 1-448).  The component is a React function component: its
    [useState] cells and [useRef] cells are the fields of [State] below,
    its handlers are state transformers, and every [await] is a
    suspension point: the handler stops there, a continuation is
    recorded, and the rest runs when the provider settles the promise.
    Between two suspension points a handler runs to completion (the
    JavaScript event loop is single-threaded).

    JavaScript numbers are IEEE binary64 values; they are modelled by the
    kernel's primitive floats.  [Date.now()] is an integer count of
    milliseconds, modelled in [Z].  [console.error] and [console.warn]
    have no effect on the component and are left out.

    Conventions of the model:
    - a [useState] setter is an assignment to its cell, in the order the
      source calls it (React applies queued updates in that order);
    - [await reverseGeocode(...)] (line 108) and [await getCurrentLocation()]
      (line 78) wait on [async] functions that finish without waiting on
      the provider; the code after them runs in the same turn of the
      event loop, before any other event;
    - a watch subscription is live from the moment the promise of
      [watchPositionAsync] is fulfilled until [remove()] is called on it;
    - [subscription.remove()] and [clearTimeout] do not throw. *)

From Stdlib Require Import ZArith Floats.PrimFloat.
From Stdlib Require Import Ascii.
From Stdlib Require DecimalString DecimalZ.
From stdpp Require Import base gmap strings list.

Local Open Scope Z_scope.

(** ** Data of the source *)

(** [interface LocationData] (lines 7-13). *)
Record LocationData := mkLocationData {
  latitude : float;
  longitude : float;
  timestamp : Z;
  accuracy : option float;
  address : option string
}.

(** [interface LocationError] (lines 15-18). *)
Record LocationError := mkLocationError {
  code : string;
  message : string
}.

(** The fields of [Location.LocationObject.coords] the screen reads;
    [accuracy] is [number | null] in expo-location. *)
Record Coords := mkCoords {
  coords_latitude : float;
  coords_longitude : float;
  coords_accuracy : option float
}.

(** The fields of [Location.LocationGeocodedAddress] that [formatAddress]
    reads; each is [string | null]. *)
Record LocationGeocodedAddress := mkGeocodedAddress {
  name : option string;
  street : option string;
  district : option string;
  city : option string;
  region : option string
}.

(** [Location.PermissionStatus]. *)
Inductive PermissionStatus := granted | denied | undetermined.

(** A settled promise: fulfilled with a value, or rejected (the [catch]
    blocks of the source never look at the reason). *)
Inductive Result (A : Type) := Fulfilled (a : A) | Rejected.
Arguments Fulfilled {A} a.
Arguments Rejected {A}.

(** ** JavaScript truthiness, as the source relies on it *)

(** [x || undefined] on a number: [0], [-0] and [NaN] are falsy. *)
Definition falsy_number (x : float) : bool :=
  PrimFloat.eqb x 0%float || negb (PrimFloat.eqb x x).

(** [coords.accuracy || undefined] (lines 102 and 199). *)
Definition accuracy_or_undefined (a : option float) : option float :=
  match a with
  | Some x => if falsy_number x then None else Some x
  | None => None
  end.

(** [if (address.name)]: [null] and the empty string are falsy. *)
Definition truthy_string (f : option string) : option string :=
  match f with
  | Some EmptyString => None
  | Some s => Some s
  | None => None
  end.

(** ** [formatAddress] (lines 158-168)

    The source pushes onto a mutable array; [push_if] is one
    [if (f) parts.push(f)] statement. *)
Definition push_if (f : option string) (parts : list string) : list string :=
  match truthy_string f with
  | Some s => parts ++ [s]
  | None => parts
  end.

Definition formatAddress (a : LocationGeocodedAddress) : string :=
  let parts := [] in
  let parts := push_if (name a) parts in
  let parts := push_if (street a) parts in
  let parts := push_if (district a) parts in
  let parts := push_if (city a) parts in
  let parts := push_if (region a) parts in
  if (0 <? length parts)%nat then String.concat ", " parts
  else "Unknown location"%string.

(** ** The component and the runtime around it *)

(** The provider calls of the screen, with the arguments that vary. *)
Inductive ProviderCall :=
| hasServicesEnabledAsync
| requestForegroundPermissionsAsync
| getCurrentPositionAsync          (* accuracy High, maximumAge 10000 *)
| requestBackgroundPermissionsAsync
| watchPositionAsync               (* accuracy High, 5000 ms, 10 m *)
| reverseGeocodeAsync (lat lon : float).

(** What the component does to the world, in the order it does it. *)
Inductive Effect :=
| Call (c : ProviderCall)
| Remove (h : nat)                 (* subscription.remove() *)
| SetTimeout (id : nat) (delay : Z)
| ClearTimeout (id : nat)
| AlertShown (title : string).

(** A pending [setTimeout] of [reverseGeocode]: the closure captures
    [latitude] and [longitude]. *)
Record Timer := mkTimer {
  timer_id : nat;
  due : Z;
  timer_latitude : float;
  timer_longitude : float
}.

(** The suspension points of the source: one per [await] on a provider
    promise.  [GetCurrentLocation_position inner] remembers whether
    [getCurrentLocation] was called from [requestLocationPermission]
    (line 78), whose [finally] then runs after it, or from the Refresh
    button. *)
Inductive Cont :=
| RequestPermission_services       (* line 56 *)
| RequestPermission_foreground     (* line 67 *)
| GetCurrentLocation_position (inner : bool)   (* line 93 *)
| StartTracking_background         (* line 175 *)
| StartTracking_watch              (* line 188 *)
| Geocode_addresses.               (* line 130 *)

Global Instance Cont_eq_dec : EqDecision Cont.
Proof. solve_decision. Defined.

(** The type of value each awaited promise is fulfilled with. *)
Definition answer (k : Cont) : Type :=
  match k with
  | RequestPermission_services => bool
  | RequestPermission_foreground => PermissionStatus
  | GetCurrentLocation_position _ => Coords
  | StartTracking_background => PermissionStatus
  | StartTracking_watch => unit
  | Geocode_addresses => list LocationGeocodedAddress
  end.

Inductive Lifecycle := NotMounted | Mounted | Unmounted.

Record State := mkState {
  (* useState cells, lines 23-33 *)
  location : option LocationData;
  isTracking : bool;
  isLoading : bool;
  error : option LocationError;
  startTime : option Z;                  (* currentTask.startTime *)
  (* useRef cells, lines 35-36 *)
  locationSubscription : option nat;
  reverseGeocodeTimeout : option nat;
  (* the runtime *)
  lifecycle : Lifecycle;
  confirmDialog : bool;                  (* the Complete Delivery alert is open *)
  now : Z;                               (* Date.now() *)
  watches : gset nat;                    (* live watch subscriptions *)
  timers : list Timer;                   (* pending timeouts, oldest first *)
  pending : gmap nat Cont;               (* suspended handlers, by promise *)
  nextId : nat;                          (* the next fresh handle *)
  trace : list Effect
}.

(** Handles are positive (React Native numbers timers from 1), so a
    stored handle is truthy: [Some _] is the truthy case of
    [if (ref.current)]. *)
Definition initial : State :=
  mkState None false false None None None None NotMounted false 0 ∅ [] ∅ 1 [].

(** A command is a piece of handler code between two suspension points. *)
Definition Cmd : Type := State -> State.

Definition skip : Cmd := fun s => s.
Definition seq (a b : Cmd) : Cmd := fun s => b (a s).
Declare Scope cmd_scope.
Delimit Scope cmd_scope with cmd.
Notation "a ;; b" := (seq a b)
  (at level 100, b at level 200, right associativity) : cmd_scope.
Local Open Scope cmd_scope.

(** *** Setters of the cells *)

Definition setLocation (f : option LocationData -> option LocationData) : Cmd :=
  fun s => mkState (f (location s)) (isTracking s) (isLoading s) (error s)
    (startTime s) (locationSubscription s) (reverseGeocodeTimeout s)
    (lifecycle s) (confirmDialog s) (now s) (watches s) (timers s)
    (pending s) (nextId s) (trace s).

Definition setIsTracking (b : bool) : Cmd :=
  fun s => mkState (location s) b (isLoading s) (error s)
    (startTime s) (locationSubscription s) (reverseGeocodeTimeout s)
    (lifecycle s) (confirmDialog s) (now s) (watches s) (timers s)
    (pending s) (nextId s) (trace s).

Definition setIsLoading (b : bool) : Cmd :=
  fun s => mkState (location s) (isTracking s) b (error s)
    (startTime s) (locationSubscription s) (reverseGeocodeTimeout s)
    (lifecycle s) (confirmDialog s) (now s) (watches s) (timers s)
    (pending s) (nextId s) (trace s).

Definition setError (e : option LocationError) : Cmd :=
  fun s => mkState (location s) (isTracking s) (isLoading s) e
    (startTime s) (locationSubscription s) (reverseGeocodeTimeout s)
    (lifecycle s) (confirmDialog s) (now s) (watches s) (timers s)
    (pending s) (nextId s) (trace s).

Definition setStartTime (t : option Z) : Cmd :=
  fun s => mkState (location s) (isTracking s) (isLoading s) (error s)
    t (locationSubscription s) (reverseGeocodeTimeout s)
    (lifecycle s) (confirmDialog s) (now s) (watches s) (timers s)
    (pending s) (nextId s) (trace s).

Definition set_locationSubscription (h : option nat) : Cmd :=
  fun s => mkState (location s) (isTracking s) (isLoading s) (error s)
    (startTime s) h (reverseGeocodeTimeout s)
    (lifecycle s) (confirmDialog s) (now s) (watches s) (timers s)
    (pending s) (nextId s) (trace s).

Definition set_reverseGeocodeTimeout (t : option nat) : Cmd :=
  fun s => mkState (location s) (isTracking s) (isLoading s) (error s)
    (startTime s) (locationSubscription s) t
    (lifecycle s) (confirmDialog s) (now s) (watches s) (timers s)
    (pending s) (nextId s) (trace s).

Definition set_lifecycle (l : Lifecycle) : Cmd :=
  fun s => mkState (location s) (isTracking s) (isLoading s) (error s)
    (startTime s) (locationSubscription s) (reverseGeocodeTimeout s)
    l (confirmDialog s) (now s) (watches s) (timers s)
    (pending s) (nextId s) (trace s).

Definition set_confirmDialog (b : bool) : Cmd :=
  fun s => mkState (location s) (isTracking s) (isLoading s) (error s)
    (startTime s) (locationSubscription s) (reverseGeocodeTimeout s)
    (lifecycle s) b (now s) (watches s) (timers s)
    (pending s) (nextId s) (trace s).

Definition set_now (t : Z) : Cmd :=
  fun s => mkState (location s) (isTracking s) (isLoading s) (error s)
    (startTime s) (locationSubscription s) (reverseGeocodeTimeout s)
    (lifecycle s) (confirmDialog s) t (watches s) (timers s)
    (pending s) (nextId s) (trace s).

Definition set_watches (w : gset nat) : Cmd :=
  fun s => mkState (location s) (isTracking s) (isLoading s) (error s)
    (startTime s) (locationSubscription s) (reverseGeocodeTimeout s)
    (lifecycle s) (confirmDialog s) (now s) w (timers s)
    (pending s) (nextId s) (trace s).

Definition set_timers (l : list Timer) : Cmd :=
  fun s => mkState (location s) (isTracking s) (isLoading s) (error s)
    (startTime s) (locationSubscription s) (reverseGeocodeTimeout s)
    (lifecycle s) (confirmDialog s) (now s) (watches s) l
    (pending s) (nextId s) (trace s).

Definition set_pending (p : gmap nat Cont) : Cmd :=
  fun s => mkState (location s) (isTracking s) (isLoading s) (error s)
    (startTime s) (locationSubscription s) (reverseGeocodeTimeout s)
    (lifecycle s) (confirmDialog s) (now s) (watches s) (timers s)
    p (nextId s) (trace s).

Definition set_nextId (n : nat) : Cmd :=
  fun s => mkState (location s) (isTracking s) (isLoading s) (error s)
    (startTime s) (locationSubscription s) (reverseGeocodeTimeout s)
    (lifecycle s) (confirmDialog s) (now s) (watches s) (timers s)
    (pending s) n (trace s).

Definition emit (e : Effect) : Cmd :=
  fun s => mkState (location s) (isTracking s) (isLoading s) (error s)
    (startTime s) (locationSubscription s) (reverseGeocodeTimeout s)
    (lifecycle s) (confirmDialog s) (now s) (watches s) (timers s)
    (pending s) (nextId s) (trace s ++ [e]).

(** *** The runtime's primitives *)

(** A fresh handle (timer id, subscription, promise). *)
Definition fresh (k : nat -> Cmd) : Cmd :=
  fun s => k (nextId s) (set_nextId (S (nextId s)) s).

(** [await Location.call(...)]: the call is issued, the handler is
    suspended at [k] until the promise settles. *)
Definition await (c : ProviderCall) (k : Cont) : Cmd :=
  emit (Call c) ;;
  fresh (fun p s => set_pending (<[p := k]> (pending s)) s).

(** [clearTimeout(id)]: a timer that already fired, or was cleared, is
    not pending and nothing happens to the others. *)
Definition clearTimeout (id : nat) : Cmd :=
  emit (ClearTimeout id) ;;
  (fun s => set_timers (filter (fun t => timer_id t ≠ id) (timers s)) s).

(** [subscription.remove()]. *)
Definition remove (h : nat) : Cmd :=
  emit (Remove h) ;;
  (fun s => set_watches (watches s ∖ {[ h ]}) s).

Definition alert (title : string) : Cmd := emit (AlertShown title).

(** ** The handlers of [LocationScreen] *)

(** [reverseGeocode] (lines 120-156), up to the [setTimeout]: the timer's
    body is [timer_callback] below. *)
Definition reverseGeocode (lat lon : float) : Cmd :=
  (fun s => match reverseGeocodeTimeout s with
            | Some id => clearTimeout id s
            | None => s
            end) ;;
  fresh (fun id s =>
    (emit (SetTimeout id 1000) ;;
     set_timers (timers s ++ [mkTimer id (now s + 1000) lat lon]) ;;
     set_reverseGeocodeTimeout (Some id)) s).

(** The timer's body up to its [await] (lines 128-133). *)
Definition timer_callback (t : Timer) : Cmd :=
  await (reverseGeocodeAsync (timer_latitude t) (timer_longitude t))
        Geocode_addresses.

(** [prev => prev ? { ...prev, address: a } : null] (lines 139-142 and
    147-150). *)
Definition patch_address (a : string) (prev : option LocationData)
  : option LocationData :=
  match prev with
  | Some p => Some (mkLocationData (latitude p) (longitude p) (timestamp p)
                                   (accuracy p) (Some a))
  | None => None
  end.

(** The timer's body after its [await] (lines 135-151). *)
Definition timer_callback_after (r : Result (list LocationGeocodedAddress)) : Cmd :=
  match r with
  | Fulfilled (a :: _) => setLocation (patch_address (formatAddress a))
  | Fulfilled [] => skip
  | Rejected => setLocation (patch_address "Address unavailable")
  end.

(** [getCurrentLocation] (lines 90-118), up to its [await]. *)
Definition getCurrentLocation (inner : bool) : Cmd :=
  setIsLoading true ;;
  await getCurrentPositionAsync (GetCurrentLocation_position inner).

(** [getCurrentLocation] after its [await]; when it was called from
    [requestLocationPermission], that function's [finally] (line 86)
    follows. *)
Definition getCurrentLocation_after (inner : bool) (r : Result Coords) : Cmd :=
  match r with
  | Fulfilled c =>
      (fun s =>
         let locationData :=
           mkLocationData (coords_latitude c) (coords_longitude c) (now s)
                          (accuracy_or_undefined (coords_accuracy c)) None in
         (setLocation (fun _ => Some locationData) ;;
          reverseGeocode (latitude locationData) (longitude locationData)) s)
  | Rejected =>
      setError (Some (mkLocationError "LOCATION_ERROR"
        "Failed to get current location. Please check your GPS signal."))
  end ;;
  setIsLoading false ;;
  (if inner then setIsLoading false else skip).

(** [requestLocationPermission] (lines 50-88), up to its first [await]. *)
Definition requestLocationPermission : Cmd :=
  setIsLoading true ;;
  setError None ;;
  await hasServicesEnabledAsync RequestPermission_services.

(** The [catch] and [finally] of [requestLocationPermission]
    (lines 79-87). *)
Definition requestLocationPermission_catch : Cmd :=
  setError (Some (mkLocationError "PERMISSION_ERROR"
    "Failed to request location permissions. Please try again.")) ;;
  setIsLoading false.

(** After [hasServicesEnabledAsync] settles (lines 57-67). *)
Definition requestLocationPermission_after_services (r : Result bool) : Cmd :=
  match r with
  | Fulfilled false =>
      setError (Some (mkLocationError "LOCATION_DISABLED"
        "Location services are disabled. Please enable them in your device settings.")) ;;
      setIsLoading false ;;
      setIsLoading false              (* return, then finally *)
  | Fulfilled true =>
      await requestForegroundPermissionsAsync RequestPermission_foreground
  | Rejected => requestLocationPermission_catch
  end.

(** After [requestForegroundPermissionsAsync] settles (lines 68-78). *)
Definition requestLocationPermission_after_foreground
  (r : Result PermissionStatus) : Cmd :=
  match r with
  | Fulfilled granted => getCurrentLocation true
  | Fulfilled _ =>
      setError (Some (mkLocationError "PERMISSION_DENIED"
        "Location permission denied. Please grant location access to use this feature.")) ;;
      setIsLoading false ;;
      setIsLoading false              (* return, then finally *)
  | Rejected => requestLocationPermission_catch
  end.

(** [startLocationTracking] (lines 170-221), up to its first [await]. *)
Definition startLocationTracking : Cmd :=
  setError None ;;
  await requestBackgroundPermissionsAsync StartTracking_background.

(** The [catch] of [startLocationTracking] (lines 213-220). *)
Definition startLocationTracking_catch : Cmd :=
  setError (Some (mkLocationError "TRACKING_ERROR"
    "Failed to start location tracking. Please try again.")) ;;
  setIsTracking false.

(** After [requestBackgroundPermissionsAsync] settles (lines 176-193). *)
Definition startLocationTracking_after_background
  (r : Result PermissionStatus) : Cmd :=
  match r with
  | Fulfilled status =>
      (match status with
       | granted => skip
       | _ => alert "Background Location"
       end) ;;
      setIsTracking true ;;
      (fun s => setStartTime (Some (now s)) s) ;;
      await watchPositionAsync StartTracking_watch
  | Rejected => startLocationTracking_catch
  end.

(** After [watchPositionAsync] settles (lines 188 and 212): the provider
    hands over a new subscription, which is stored in the ref. *)
Definition startLocationTracking_after_watch (r : Result unit) : Cmd :=
  match r with
  | Fulfilled _ =>
      fresh (fun h s =>
        (set_watches (watches s ∪ {[ h ]}) ;;
         set_locationSubscription (Some h)) s) ;;
      alert "Tracking Started"
  | Rejected => startLocationTracking_catch
  end.

(** The callback given to [watchPositionAsync] (lines 194-209). *)
Definition watch_callback (newLocation : Coords) : Cmd :=
  fun s =>
    let locationData :=
      mkLocationData (coords_latitude newLocation) (coords_longitude newLocation)
                     (now s) (accuracy_or_undefined (coords_accuracy newLocation))
                     None in
    (setLocation (fun prev =>
       Some (mkLocationData (latitude locationData) (longitude locationData)
               (timestamp locationData) (accuracy locationData)
               (match prev with Some p => address p | None => None end))) ;;
     reverseGeocode (latitude locationData) (longitude locationData)) s.

(** [stopLocationTracking] (lines 223-235). *)
Definition stopLocationTracking : Cmd :=
  (fun s => match locationSubscription s with
            | Some h => (remove h ;; set_locationSubscription None) s
            | None => s
            end) ;;
  (fun s => match reverseGeocodeTimeout s with
            | Some id => (clearTimeout id ;; set_reverseGeocodeTimeout None) s
            | None => s
            end) ;;
  setIsTracking false.

(** [handleStopTracking] (lines 237-244). *)
Definition handleStopTracking : Cmd :=
  stopLocationTracking ;; alert "Tracking Stopped".

(** [completeDelivery] (lines 246-268), up to the dialog. *)
Definition completeDelivery : Cmd :=
  fun s => match location s with
           | None => alert "Error" s
           | Some _ => (alert "Complete Delivery" ;; set_confirmDialog true) s
           end.

(** The Confirm button of that dialog (lines 261-264). *)
Definition completeDelivery_confirm : Cmd :=
  set_confirmDialog false ;; stopLocationTracking ;; alert "Success".

(** The [useEffect] of lines 38-48: its body, and the cleanup it
    returns. *)
Definition mount : Cmd :=
  set_lifecycle Mounted ;; requestLocationPermission.

Definition unmount_cleanup : Cmd :=
  stopLocationTracking ;;
  (fun s => match reverseGeocodeTimeout s with
            | Some id => clearTimeout id s
            | None => s
            end) ;;
  set_lifecycle Unmounted.

(** ** The event loop *)

(** The continuation run when a promise settles. *)
Definition resume (k : Cont) : Result (answer k) -> Cmd :=
  match k with
  | RequestPermission_services => requestLocationPermission_after_services
  | RequestPermission_foreground => requestLocationPermission_after_foreground
  | GetCurrentLocation_position inner => getCurrentLocation_after inner
  | StartTracking_background => startLocationTracking_after_background
  | StartTracking_watch => startLocationTracking_after_watch
  | Geocode_addresses => timer_callback_after
  end.

(** What can happen to the screen.  The [Press] events are the
    [onPress] of the controls of lines 329, 412, 419, 427 and 436. *)
Inductive Event :=
| Mount
| Unmount
| PressRetry
| PressStart
| PressStop
| PressComplete
| ConfirmDelivery
| CancelDelivery
| PressRefresh
| Settle (p : nat) (k : Cont) (r : Result (answer k))
| WatchEmit (h : nat) (c : Coords)
| Elapse (d : Z).

Definition is_mounted (s : State) : bool :=
  match lifecycle s with Mounted => true | _ => false end.

Definition is_some {A} (o : option A) : bool :=
  match o with Some _ => true | None => false end.

(** Timers fire in the order they were set (all have the same delay):
    the due ones run their callback, the others stay. *)
Definition fire_due (s : State) : State :=
  let d := filter (fun t => due t <= now s) (timers s) in
  let r := filter (fun t => ¬ (due t <= now s)) (timers s) in
  foldl (fun s t => timer_callback t s) (set_timers r s) d.

(** One turn of the event loop.  A control that is not rendered or is
    disabled (lines 322, 409-413, 428, 437) does nothing; a promise
    settles once; a watch calls back while its subscription is live. *)
Definition step (e : Event) (s : State) : State :=
  match e with
  | Mount =>
      match lifecycle s with NotMounted => mount s | _ => s end
  | Unmount =>
      if is_mounted s then unmount_cleanup s else s
  | PressRetry =>
      if is_mounted s && is_some (error s) then requestLocationPermission s
      else s
  | PressStart =>
      if is_mounted s && negb (isTracking s)
         && negb (isLoading s || is_some (error s))
      then startLocationTracking s else s
  | PressStop =>
      if is_mounted s && isTracking s then handleStopTracking s else s
  | PressComplete =>
      if is_mounted s && is_some (location s) then completeDelivery s else s
  | ConfirmDelivery =>
      if confirmDialog s then completeDelivery_confirm s else s
  | CancelDelivery => set_confirmDialog false s
  | PressRefresh =>
      if is_mounted s && negb (isLoading s) then getCurrentLocation false s
      else s
  | Settle p k r =>
      if decide (pending s !! p = Some k)
      then resume k r (set_pending (delete p (pending s)) s)
      else s
  | WatchEmit h c =>
      if decide (h ∈ watches s) then watch_callback c s else s
  | Elapse d =>
      if decide (0 <= d) then fire_due (set_now (now s + d) s) else s
  end.

Definition run (es : list Event) (s : State) : State :=
  foldl (fun s e => step e s) s es.

(** ** Definitions used by the statements *)

(** *** Address formatting, in the words of the specification

    The components in the fixed order name, street, district, city,
    region; those present; their comma-joined concatenation, or
    "Unknown location" when none is present.  A component is present
    when the source's [if (address.f)] takes it: it is neither [null]
    nor the empty string. *)
Definition components (a : LocationGeocodedAddress) : list (option string) :=
  [name a; street a; district a; city a; region a].

Definition present_components (a : LocationGeocodedAddress) : list string :=
  omap truthy_string (components a).

Definition formatAddress_spec (a : LocationGeocodedAddress) : string :=
  match present_components a with
  | [] => "Unknown location"
  | parts => String.concat ", " parts
  end.

(** *** Readings *)

(** [q] is [p] with another address: the reading itself is untouched. *)
Definition same_reading (p q : LocationData) : Prop :=
  latitude q = latitude p /\ longitude q = longitude p
  /\ timestamp q = timestamp p /\ accuracy q = accuracy p.

(** [prev?.address]. *)
Definition address_of (prev : option LocationData) : option string :=
  match prev with Some p => address p | None => None end.

(** The error objects of the source, by kind. *)
Definition LOCATION_DISABLED : LocationError :=
  mkLocationError "LOCATION_DISABLED"
    "Location services are disabled. Please enable them in your device settings.".
Definition PERMISSION_DENIED : LocationError :=
  mkLocationError "PERMISSION_DENIED"
    "Location permission denied. Please grant location access to use this feature.".
Definition LOCATION_ERROR : LocationError :=
  mkLocationError "LOCATION_ERROR"
    "Failed to get current location. Please check your GPS signal.".
Definition PERMISSION_ERROR : LocationError :=
  mkLocationError "PERMISSION_ERROR"
    "Failed to request location permissions. Please try again.".

(** [{ ...p, address: a }]. *)
Definition with_address (p : LocationData) (a : string) : LocationData :=
  mkLocationData (latitude p) (longitude p) (timestamp p) (accuracy p) (Some a).

(** *** Concrete inputs *)

Definition fix1 : Coords := mkCoords 40.5%float (-73.25)%float (Some 5%float).
Definition fix2 : Coords := mkCoords 40.75%float (-73.5)%float None.

Definition main_st : LocationGeocodedAddress :=
  mkGeocodedAddress None (Some "Main St"%string) None
                    (Some "Springfield"%string) None.

(** The screen after a successful mount: service on, permission granted,
    first fix stored, its geocode timer (handle 4) pending. *)
Definition located : State :=
  run [Mount;
       Settle 1 RequestPermission_services (Fulfilled true);
       Settle 2 RequestPermission_foreground (Fulfilled granted);
       Settle 3 (GetCurrentLocation_position true) (Fulfilled fix1)]
      initial.

(** One second later the timer has fired: the geocode call (promise 5)
    is in flight. *)
Definition geocoding : State := step (Elapse 1000) located.

(** The address has arrived. *)
Definition ready : State :=
  step (Settle 5 Geocode_addresses (Fulfilled [main_st])) geocoding.

(** The screen at the moment [useEffect] runs. *)
Definition mounting : State := set_lifecycle Mounted initial.

(** *** The debounce timer *)

(** At most one timeout is pending, and the ref holds its handle. *)
Definition timers_wf (s : State) : Prop :=
  timers s = []
  \/ exists t, timers s = [t] /\ reverseGeocodeTimeout s = Some (timer_id t).

(** The coordinates of the reverse-geocode calls issued, oldest first. *)
Definition geocode_calls (tr : list Effect) : list (float * float) :=
  omap (fun e => match e with
                 | Call (reverseGeocodeAsync lat lon) => Some (lat, lon)
                 | _ => None
                 end) tr.

(** What [stopLocationTracking] does to the world in a given state. *)
Definition stop_effects (s : State) : list Effect :=
  match locationSubscription s with Some h => [Remove h] | None => [] end
  ++ match reverseGeocodeTimeout s with Some id => [ClearTimeout id] | None => [] end.

(** *** Tracking sessions used as inputs *)

(** From [ready]: Start pressed, background permission granted (promise
    6), watch opened (promise 7): subscription 8 is live and stored. *)
Definition starting : State :=
  run [PressStart; Settle 6 StartTracking_background (Fulfilled granted)] ready.

Definition tracking : State :=
  step (Settle 7 StartTracking_watch (Fulfilled ())) starting.

(** The screen unmounts while [watchPositionAsync] is still pending. *)
Definition unmounted_while_starting : State := step Unmount starting.

(** From [ready]: Start pressed twice before the first background
    answer.  [isTracking] is still false at the second press, so the
    Start button of line 409 is still rendered.  Both requests are then
    answered (promises 6 and 7) and both watches open (promises 8 and
    9). *)
Definition started_twice : State :=
  run [PressStart; PressStart;
       Settle 6 StartTracking_background (Fulfilled granted);
       Settle 7 StartTracking_background (Fulfilled granted);
       Settle 8 StartTracking_watch (Fulfilled ());
       Settle 9 StartTracking_watch (Fulfilled ())] ready.

(** *** Bursts of position updates *)

(** The watch [h] calls back with each reading of [us], the reading
    [(d, c)] arriving [d] milliseconds after the one before it. *)
Fixpoint burst (h : nat) (us : list (Z * Coords)) : list Event :=
  match us with
  | [] => []
  | (d, c) :: us => Elapse d :: WatchEmit h c :: burst h us
  end.

(** The last reading of a burst that starts with [c0]. *)
Fixpoint last_reading (c0 : Coords) (us : list (Z * Coords)) : Coords :=
  match us with
  | [] => c0
  | (_, c) :: us => last_reading c us
  end.

(** The debounce timer is armed for reading [c]: it is the only pending
    timeout, it was set [age] milliseconds ago, and the ref holds it. *)
Definition armed (c : Coords) (age : Z) (s : State) : Prop :=
  exists id,
    timers s = [mkTimer id (now s - age + 1000)
                        (coords_latitude c) (coords_longitude c)]
    /\ reverseGeocodeTimeout s = Some id.

(** *** Quiescence *)

(** Every live watch is the one the ref holds. *)
Definition watches_wf (s : State) : Prop :=
  forall h, h ∈ watches s -> locationSubscription s = Some h.

(** Nothing is left that could call back into the component. *)
Definition idle (s : State) : Prop :=
  watches s = ∅ /\ timers s = [] /\ pending s = ∅ /\ confirmDialog s = false.

(** ** The rest of [LocationScreen] *)

(** [n.toString()] and template interpolation of a number that holds an
    integer: its decimal digits, with a minus sign when negative. *)
Definition number_toString (z : Z) : string :=
  DecimalString.NilZero.string_of_int (Z.to_int z).

(** [s.padStart(n, c)] with a one-character filler. *)
Definition padStart (n : nat) (c : Ascii.ascii) (s : string) : string :=
  String.app (String.string_of_list_ascii (repeat c (n - String.length s))) s.

(** [getElapsedTime] (lines 278-285).  [Date] values are integers of
    milliseconds; on them [Math.floor(x / k)] is the floor quotient and
    [%] the remainder with the sign of the dividend. *)
Definition getElapsedTime (s : State) : string :=
  match startTime s with
  | None => "--:--"
  | Some start =>
      let elapsed := now s - start in
      let minutes := elapsed / 60000 in
      let seconds := Z.rem elapsed 60000 / 1000 in
      String.app (number_toString minutes)
        (String.app ":" (padStart 2 "0"%char (number_toString seconds)))
  end.

(** [getLocationStatusText] (lines 287-292) and [getLocationStatusColor]
    (lines 294-299). *)
Definition getLocationStatusText (s : State) : string :=
  if isLoading s then "Finding location..."
  else if is_some (error s) then "Location unavailable"
  else if isTracking s then "Tracking active"
  else "Ready to track".

Definition getLocationStatusColor (s : State) : string :=
  if isLoading s then "#F59E0B"
  else if is_some (error s) then "#EF4444"
  else if isTracking s then "#10B981"
  else "#64748B".

(** *** Invariants of the runs *)

(** The suspension points of the two handlers that show the spinner. *)
Definition loader (k : Cont) : bool :=
  match k with
  | RequestPermission_services | RequestPermission_foreground
  | GetCurrentLocation_position _ => true
  | _ => false
  end.

(** Handles are handed out once: everything pending or live is older
    than the next one. *)
Definition handles_fresh (s : State) : Prop :=
  (forall p k, pending s !! p = Some k -> (p < nextId s)%nat)
  /\ (forall h, h ∈ watches s -> (h < nextId s)%nat).

(** The subscriptions [remove()] was called on, oldest first. *)
Definition removed (tr : list Effect) : list nat :=
  omap (fun e => match e with Remove h => Some h | _ => None end) tr.

(** The stored subscription is live, and a removed one is neither live
    nor removed again. *)
Definition releases_wf (s : State) : Prop :=
  (forall h, locationSubscription s = Some h -> h ∈ watches s)
  /\ (forall h, h ∈ removed (trace s) -> (h ∉ watches s) /\ (h < nextId s)%nat)
  /\ NoDup (removed (trace s)).

(** A stored accuracy is a number the screen's [location.accuracy &&]
    takes: not [0], not [NaN]. *)
Definition accuracy_truthy (s : State) : Prop :=
  forall p a, location s = Some p -> accuracy p = Some a ->
              falsy_number a = false.

(** The reading the screen stores for a fix received at time [t]. *)
Definition reading (c : Coords) (t : Z) (a : option string) : LocationData :=
  mkLocationData (coords_latitude c) (coords_longitude c) t
                 (accuracy_or_undefined (coords_accuracy c)) a.

(** The spinner shows only while a request of [requestLocationPermission]
    or [getCurrentLocation] is outstanding. *)
Definition spinner_wf (s : State) : Prop :=
  isLoading s = true ->
  exists p k, pending s !! p = Some k /\ loader k = true.

Definition TRACKING_ERROR : LocationError :=
  mkLocationError "TRACKING_ERROR"
    "Failed to start location tracking. Please try again.".

(** The alert of lines 176-182. *)
Definition background_notice (status : PermissionStatus) : list Effect :=
  match status with
  | granted => []
  | _ => [AlertShown "Background Location"]
  end.

(** A geocode call (promise 10) in flight while tracking: the watch has
    reported [fix2] and its timeout has fired. *)
Definition tracking_geocoding : State :=
  run [WatchEmit 8 fix2; Elapse 1000] tracking.

(** ** The Add Task form of [TasksScreen]

    Source: the fourth component of [src/app/(tabs)/location.tsx],
    [TasksScreen] (lines 2035-2577): the form state of lines 2040-2046,
    [addItem], [removeItem], [updateItem] and [saveTask] (lines
    2258-2326), and the controls of the modal (lines 2342-2422).  Its
    location handlers are those of [LocationScreen], without the start
    time.

    [String.prototype.trim] is the engine's; the handlers are parametric
    in it.  [saveTask] is [async]: what it reads after its [await] are
    the values of the render in which Save was pressed, kept in a
    [Closure]. *)
Module TaskForm.

(** [interface TaskItem] (lines 2018-2022). *)
Record TaskItem := mkTaskItem {
  id : string;
  name : string;
  quantity : string
}.

(** [interface CompletedTask] (lines 2024-2031). *)
Record CompletedTask := mkCompletedTask {
  task_id : string;
  task_shopName : string;
  task_shopLocation : string;
  task_items : list TaskItem;
  completedAt : Z;
  gpsLocation : LocationData
}.

(** The argument [field] of [updateItem]: ['name' | 'quantity']. *)
Inductive Field := field_name | field_quantity.

Inductive Effect :=
| AlertShown (title message : string)
| Call_getCurrentPositionAsync.       (* accuracy High *)

(** What a suspended [saveTask] holds on to. *)
Record Closure := mkClosure {
  closure_shopName : string;
  closure_shopLocation : string;
  closure_validItems : list TaskItem;
  closure_completedTasks : list CompletedTask
}.

Record State := mkState {
  (* useState cells, lines 2040-2046 *)
  showAddTaskModal : bool;
  completedTasks : list CompletedTask;
  shopName : string;
  shopLocation : string;
  items : list TaskItem;
  (* the runtime *)
  now : Z;
  pending : gmap nat Closure;
  nextId : nat;
  trace : list Effect
}.

(** [{ id: '1', name: '', quantity: '' }] (lines 2046 and 2318). *)
Definition blank_item : TaskItem := mkTaskItem "1" "" "".

Definition initial : State :=
  mkState false [] "" "" [blank_item] 0 ∅ 1 [].

Definition setShowAddTaskModal (b : bool) (s : State) : State :=
  mkState b (completedTasks s) (shopName s) (shopLocation s) (items s)
          (now s) (pending s) (nextId s) (trace s).
Definition setCompletedTasks (l : list CompletedTask) (s : State) : State :=
  mkState (showAddTaskModal s) l (shopName s) (shopLocation s) (items s)
          (now s) (pending s) (nextId s) (trace s).
Definition setShopName (v : string) (s : State) : State :=
  mkState (showAddTaskModal s) (completedTasks s) v (shopLocation s) (items s)
          (now s) (pending s) (nextId s) (trace s).
Definition setShopLocation (v : string) (s : State) : State :=
  mkState (showAddTaskModal s) (completedTasks s) (shopName s) v (items s)
          (now s) (pending s) (nextId s) (trace s).
Definition setItems (l : list TaskItem) (s : State) : State :=
  mkState (showAddTaskModal s) (completedTasks s) (shopName s)
          (shopLocation s) l (now s) (pending s) (nextId s) (trace s).
Definition set_now (t : Z) (s : State) : State :=
  mkState (showAddTaskModal s) (completedTasks s) (shopName s)
          (shopLocation s) (items s) t (pending s) (nextId s) (trace s).
Definition set_pending (m : gmap nat Closure) (s : State) : State :=
  mkState (showAddTaskModal s) (completedTasks s) (shopName s)
          (shopLocation s) (items s) (now s) m (nextId s) (trace s).
Definition set_nextId (n : nat) (s : State) : State :=
  mkState (showAddTaskModal s) (completedTasks s) (shopName s)
          (shopLocation s) (items s) (now s) (pending s) n (trace s).
Definition emit (e : Effect) (s : State) : State :=
  mkState (showAddTaskModal s) (completedTasks s) (shopName s)
          (shopLocation s) (items s) (now s) (pending s) (nextId s)
          (trace s ++ [e]).

(** [addItem] (lines 2258-2265). *)
Definition addItem (s : State) : State :=
  let newItem := mkTaskItem (number_toString (now s)) "" "" in
  setItems (items s ++ [newItem]) s.

(** [removeItem] (lines 2267-2271). *)
Definition removeItem (i : string) (s : State) : State :=
  if (1 <? length (items s))%nat
  then setItems (filter (fun item => id item ≠ i) (items s)) s
  else s.

(** [{ ...item, [field]: value }]. *)
Definition with_field (field : Field) (value : string) (item : TaskItem)
  : TaskItem :=
  match field with
  | field_name => mkTaskItem (id item) value (quantity item)
  | field_quantity => mkTaskItem (id item) (name item) value
  end.

(** [updateItem] (lines 2273-2277). *)
Definition updateItem (i : string) (field : Field) (value : string)
  (s : State) : State :=
  setItems (map (fun item => if decide (id item = i)
                             then with_field field value item
                             else item) (items s)) s.

Section WithTrim.
Variable trim : string -> string.

(** [!v.trim()]: the empty string is the only falsy string. *)
Definition blank (v : string) : bool := bool_decide (trim v = "").

(** [item.name.trim() && item.quantity.trim()] (line 2285). *)
Definition valid (item : TaskItem) : bool :=
  negb (blank (name item)) && negb (blank (quantity item)).

(** The form passes the checks of lines 2280-2289. *)
Definition accepted (s : State) : Prop :=
  trim (shopName s) <> ""%string
  /\ trim (shopLocation s) <> ""%string
  /\ exists item, item ∈ items s
                  /\ trim (name item) <> ""%string
                  /\ trim (quantity item) <> ""%string.

(** [saveTask] (lines 2279-2326), up to its [await]. *)
Definition saveTask (s : State) : State :=
  if blank (shopName s) || blank (shopLocation s)
  then emit (AlertShown "Error" "Please fill in shop name and location.") s
  else
    let validItems := filter (fun item => valid item = true) (items s) in
    if (length validItems =? 0)%nat
    then emit (AlertShown "Error" "Please add at least one item.") s
    else
      let k := mkClosure (shopName s) (shopLocation s) validItems
                         (completedTasks s) in
      set_pending (<[nextId s := k]> (pending s))
        (set_nextId (S (nextId s))
           (emit Call_getCurrentPositionAsync s)).

(** [saveTask] after its [await]: lines 2297-2321, and the [catch]
    of lines 2322-2325. *)
Definition saveTask_after (k : Closure) (r : Result Coords) (s : State)
  : State :=
  match r with
  | Fulfilled currentLocation =>
      let gpsLocation :=
        mkLocationData (coords_latitude currentLocation)
          (coords_longitude currentLocation) (now s)
          (accuracy_or_undefined (coords_accuracy currentLocation))
          None in
      let completedTask :=
        mkCompletedTask (number_toString (now s))
          (trim (closure_shopName k)) (trim (closure_shopLocation k))
          (closure_validItems k) (now s) gpsLocation in
      emit (AlertShown "Success"
              "Task saved successfully and added to completed section!")
        (setItems [blank_item]
           (setShopLocation ""
              (setShopName ""
                 (setCompletedTasks
                    (closure_completedTasks k ++ [completedTask]) s))))
  | Rejected =>
      emit (AlertShown "Error"
              "Failed to get GPS location. Please try again.") s
  end.

(** What can happen to the form.  Its controls are inside the modal
    (lines 2343-2421) and can be used while it is shown; a Remove
    button is rendered per item while there are several (line
    2399), a text input per item. *)
Inductive Event :=
| OpenModal
| CloseModal
| ChangeShopName (value : string)
| ChangeShopLocation (value : string)
| ChangeItem (i : string) (field : Field) (value : string)
| PressAddItem
| PressRemoveItem (i : string)
| PressSave
| Settle (p : nat) (r : Result Coords)
| Elapse (d : Z).

Definition step (e : Event) (s : State) : State :=
  match e with
  | OpenModal => setShowAddTaskModal true s
  | CloseModal =>
      if showAddTaskModal s then setShowAddTaskModal false s else s
  | ChangeShopName v => if showAddTaskModal s then setShopName v s else s
  | ChangeShopLocation v =>
      if showAddTaskModal s then setShopLocation v s else s
  | ChangeItem i field v =>
      if showAddTaskModal s && bool_decide (i ∈ map id (items s))
      then updateItem i field v s else s
  | PressAddItem => if showAddTaskModal s then addItem s else s
  | PressRemoveItem i =>
      if showAddTaskModal s && (1 <? length (items s))%nat
         && bool_decide (i ∈ map id (items s))
      then removeItem i s else s
  | PressSave => if showAddTaskModal s then saveTask s else s
  | Settle p r =>
      match pending s !! p with
      | Some k => saveTask_after k r (set_pending (delete p (pending s)) s)
      | None => s
      end
  | Elapse d => if decide (0 <= d) then set_now (now s + d) s else s
  end.

Definition run (es : list Event) (s : State) : State :=
  foldl (fun s e => step e s) s es.
End WithTrim.
End TaskForm.

(** *** Inputs for the form *)

(** A [trim] for the examples: it strips the spaces at both ends. *)
Fixpoint strip_spaces (l : list ascii) : list ascii :=
  match l with
  | " "%char :: r => strip_spaces r
  | _ => l
  end.

Definition trim_spaces (v : string) : string :=
  String.string_of_list_ascii
    (rev (strip_spaces (rev (strip_spaces (String.list_ascii_of_string v))))).

(** The modal open, the shop filled in, one item typed and a second,
    blank one added five seconds in. *)
Definition form_filled : TaskForm.State :=
  TaskForm.run trim_spaces
    [TaskForm.OpenModal;
     TaskForm.ChangeShopName " Corner Shop ";
     TaskForm.ChangeShopLocation "5 High St";
     TaskForm.ChangeItem "1" TaskForm.field_name "Rice";
     TaskForm.ChangeItem "1" TaskForm.field_quantity "13kg";
     TaskForm.Elapse 5000;
     TaskForm.PressAddItem]
    TaskForm.initial.

(** ** The earlier [LocationScreen]

    Source: the second component of [src/app/(tabs)/location.tsx]
    (lines 766-1018): a screen without refs, without geocoding and
    without a cleanup, with a browser branch ([Platform.OS === 'web'])
    beside the native one.  The platform is fixed for a run. *)
Module BasicScreen.

(** [interface LocationData] (lines 759-764); [accuracy] is stored as
    the provider gives it. *)
Record LocationData := mkLocationData {
  latitude : float;
  longitude : float;
  timestamp : Z;
  accuracy : option float
}.

(** [Platform.OS], and on the web whether [navigator.geolocation]
    exists. *)
Inductive Platform := native | web (geolocation : bool).

Inductive Effect :=
| Call_requestForegroundPermissionsAsync
| Call_getCurrentPositionAsync
| Call_watchPositionAsync                 (* High, 10000 ms, 10 m *)
| Call_geolocation_getCurrentPosition
| Call_geolocation_watchPosition
| AlertShown (title : string)
| Uncaught.                               (* a TypeError leaves the handler *)

(** The suspension points: the two [await]s of the native branch
    (lines 805 and 811), the callbacks of the browser's
    [getCurrentPosition] (line 786), and the promise of
    [watchPositionAsync] (line 849), which nothing waits for. *)
Inductive Cont :=
| Permission_foreground
| Permission_position
| Geolocation_position
| Watch_opening.

Global Instance Cont_eq_decision : EqDecision Cont.
Proof. solve_decision. Defined.

Definition answer (k : Cont) : Type :=
  match k with
  | Permission_foreground => PermissionStatus
  | Permission_position => Coords
  | Geolocation_position => Coords
  | Watch_opening => unit
  end.

Record State := mkState {
  (* useState cells, lines 767-776 *)
  location : option LocationData;
  isTracking : bool;
  startTime : option Z;
  errorMsg : option string;
  (* the runtime *)
  platform : Platform;
  lifecycle : Lifecycle;
  confirmDialog : bool;
  now : Z;
  watches : gset nat;
  pending : gmap nat Cont;
  nextId : nat;
  trace : list Effect
}.

Definition initial (os : Platform) : State :=
  mkState None false None None os NotMounted false 0 ∅ ∅ 1 [].

Definition setLocation (l : option LocationData) (s : State) : State :=
  mkState l (isTracking s) (startTime s) (errorMsg s) (platform s)
    (lifecycle s) (confirmDialog s) (now s) (watches s) (pending s)
    (nextId s) (trace s).
Definition setIsTracking (b : bool) (s : State) : State :=
  mkState (location s) b (startTime s) (errorMsg s) (platform s)
    (lifecycle s) (confirmDialog s) (now s) (watches s) (pending s)
    (nextId s) (trace s).
Definition setStartTime (t : option Z) (s : State) : State :=
  mkState (location s) (isTracking s) t (errorMsg s) (platform s)
    (lifecycle s) (confirmDialog s) (now s) (watches s) (pending s)
    (nextId s) (trace s).
Definition setErrorMsg (m : option string) (s : State) : State :=
  mkState (location s) (isTracking s) (startTime s) m (platform s)
    (lifecycle s) (confirmDialog s) (now s) (watches s) (pending s)
    (nextId s) (trace s).
Definition set_lifecycle (l : Lifecycle) (s : State) : State :=
  mkState (location s) (isTracking s) (startTime s) (errorMsg s) (platform s)
    l (confirmDialog s) (now s) (watches s) (pending s)
    (nextId s) (trace s).
Definition set_confirmDialog (b : bool) (s : State) : State :=
  mkState (location s) (isTracking s) (startTime s) (errorMsg s) (platform s)
    (lifecycle s) b (now s) (watches s) (pending s)
    (nextId s) (trace s).
Definition set_now (t : Z) (s : State) : State :=
  mkState (location s) (isTracking s) (startTime s) (errorMsg s) (platform s)
    (lifecycle s) (confirmDialog s) t (watches s) (pending s)
    (nextId s) (trace s).
Definition set_watches (w : gset nat) (s : State) : State :=
  mkState (location s) (isTracking s) (startTime s) (errorMsg s) (platform s)
    (lifecycle s) (confirmDialog s) (now s) w (pending s)
    (nextId s) (trace s).
Definition set_pending (m : gmap nat Cont) (s : State) : State :=
  mkState (location s) (isTracking s) (startTime s) (errorMsg s) (platform s)
    (lifecycle s) (confirmDialog s) (now s) (watches s) m
    (nextId s) (trace s).
Definition set_nextId (n : nat) (s : State) : State :=
  mkState (location s) (isTracking s) (startTime s) (errorMsg s) (platform s)
    (lifecycle s) (confirmDialog s) (now s) (watches s) (pending s)
    n (trace s).
Definition emit (e : Effect) (s : State) : State :=
  mkState (location s) (isTracking s) (startTime s) (errorMsg s) (platform s)
    (lifecycle s) (confirmDialog s) (now s) (watches s) (pending s)
    (nextId s) (trace s ++ [e]).

(** A call whose answer comes later, at [k]. *)
Definition later (e : Effect) (k : Cont) (s : State) : State :=
  set_pending (<[nextId s := k]> (pending s))
    (set_nextId (S (nextId s)) (emit e s)).

(** The object every branch passes to [setLocation] (lines 788-793,
    812-817, 832-837, 856-861). *)
Definition stored (c : Coords) (s : State) : LocationData :=
  mkLocationData (coords_latitude c) (coords_longitude c) (now s)
                 (coords_accuracy c).

(** [requestLocationPermission] (lines 782-822), up to the first
    answer it waits for. *)
Definition requestLocationPermission (s : State) : State :=
  match platform s with
  | web true => later Call_geolocation_getCurrentPosition Geolocation_position s
  | web false =>
      setErrorMsg (Some "Geolocation not supported by this browser"%string) s
  | native => later Call_requestForegroundPermissionsAsync Permission_foreground s
  end.

(** The callbacks of lines 787-797. *)
Definition geolocation_position_after (r : Result Coords) (s : State) : State :=
  match r with
  | Fulfilled position => setLocation (Some (stored position s)) s
  | Rejected =>
      setErrorMsg (Some "Location access denied or unavailable"%string) s
  end.

(** The [catch] of lines 818-820. *)
Definition requestLocationPermission_catch (s : State) : State :=
  setErrorMsg (Some "Error getting location"%string) s.

(** Lines 806-811. *)
Definition requestLocationPermission_after_foreground
  (r : Result PermissionStatus) (s : State) : State :=
  match r with
  | Fulfilled granted => later Call_getCurrentPositionAsync Permission_position s
  | Fulfilled _ => setErrorMsg (Some "Location permission denied"%string) s
  | Rejected => requestLocationPermission_catch s
  end.

(** Lines 812-817. *)
Definition requestLocationPermission_after_position
  (r : Result Coords) (s : State) : State :=
  match r with
  | Fulfilled currentLocation => setLocation (Some (stored currentLocation s)) s
  | Rejected => requestLocationPermission_catch s
  end.

(** [startTracking] (lines 824-865).  In a browser the watch is live
    at once and the function it returns for cleanup is dropped by
    [onPress]; without [navigator.geolocation] the call throws after
    the two setters.  On a device the promise of [watchPositionAsync]
    is dropped. *)
Definition startTracking (s : State) : State :=
  let s := setIsTracking true s in
  let s := setStartTime (Some (now s)) s in
  match platform s with
  | web true =>
      set_watches (watches s ∪ {[ nextId s ]})
        (set_nextId (S (nextId s)) (emit Call_geolocation_watchPosition s))
  | web false => emit Uncaught s
  | native => later Call_watchPositionAsync Watch_opening s
  end.

(** The promise of [watchPositionAsync] settles: fulfilled, the watch
    is live; rejected, nothing in the component hears of it. *)
Definition watch_opening_after (r : Result unit) (s : State) : State :=
  match r with
  | Fulfilled _ =>
      set_watches (watches s ∪ {[ nextId s ]}) (set_nextId (S (nextId s)) s)
  | Rejected => s
  end.

(** The success callbacks of the watches (lines 831-838, 855-862). *)
Definition watch_callback (c : Coords) (s : State) : State :=
  setLocation (Some (stored c s)) s.

(** [stopTracking] (lines 867-874). *)
Definition stopTracking (s : State) : State :=
  emit (AlertShown "Tracking Stopped") (setIsTracking false s).

(** [completeDelivery] (lines 876-896), up to the dialog, and its
    Confirm button. *)
Definition completeDelivery (s : State) : State :=
  match location s with
  | None => emit (AlertShown "Error") s
  | Some _ => set_confirmDialog true (emit (AlertShown "Complete Delivery") s)
  end.

Definition completeDelivery_confirm (s : State) : State :=
  emit (AlertShown "Success") (setIsTracking false (set_confirmDialog false s)).

Definition resume (k : Cont) : Result (answer k) -> State -> State :=
  match k with
  | Permission_foreground => requestLocationPermission_after_foreground
  | Permission_position => requestLocationPermission_after_position
  | Geolocation_position => geolocation_position_after
  | Watch_opening => watch_opening_after
  end.

(** What can happen to the screen; the [useEffect] of lines 778-780
    returns no cleanup, so unmounting only takes the controls away. *)
Inductive Event :=
| Mount
| Unmount
| PressRetry
| PressRefresh
| PressStart
| PressStop
| PressComplete
| ConfirmDelivery
| CancelDelivery
| Settle (p : nat) (k : Cont) (r : Result (answer k))
| WatchEmit (h : nat) (c : Coords)
| Elapse (d : Z).

Definition is_mounted (s : State) : bool :=
  match lifecycle s with Mounted => true | _ => false end.

Definition step (e : Event) (s : State) : State :=
  match e with
  | Mount =>
      match lifecycle s with
      | NotMounted => requestLocationPermission (set_lifecycle Mounted s)
      | _ => s
      end
  | Unmount => if is_mounted s then set_lifecycle Unmounted s else s
  | PressRetry =>
      if is_mounted s && is_some (errorMsg s)
      then requestLocationPermission s else s
  | PressRefresh => if is_mounted s then requestLocationPermission s else s
  | PressStart =>
      if is_mounted s && negb (isTracking s) then startTracking s else s
  | PressStop =>
      if is_mounted s && isTracking s then stopTracking s else s
  | PressComplete =>
      if is_mounted s && is_some (location s) then completeDelivery s else s
  | ConfirmDelivery =>
      if confirmDialog s then completeDelivery_confirm s else s
  | CancelDelivery => set_confirmDialog false s
  | Settle p k r =>
      if decide (pending s !! p = Some k)
      then resume k r (set_pending (delete p (pending s)) s)
      else s
  | WatchEmit h c =>
      if decide (h ∈ watches s) then watch_callback c s else s
  | Elapse d => if decide (0 <= d) then set_now (now s + d) s else s
  end.

Definition run (es : list Event) (s : State) : State :=
  foldl (fun s e => step e s) s es.
End BasicScreen.

(** *** Inputs for the earlier screen *)

(** On a device: mounted, permission refused. *)
Definition basic_denied : BasicScreen.State :=
  BasicScreen.run
    [BasicScreen.Mount;
     BasicScreen.Settle 1 BasicScreen.Permission_foreground (Fulfilled denied)]
    (BasicScreen.initial BasicScreen.native).

(** On a device: mounted, permission granted, first fix stored. *)
Definition basic_located : BasicScreen.State :=
  BasicScreen.run
    [BasicScreen.Mount;
     BasicScreen.Settle 1 BasicScreen.Permission_foreground (Fulfilled granted);
     BasicScreen.Settle 2 BasicScreen.Permission_position (Fulfilled fix1)]
    (BasicScreen.initial BasicScreen.native).

(** Then Start pressed and the watch (handle 4) opened. *)
Definition basic_tracking : BasicScreen.State :=
  BasicScreen.run
    [BasicScreen.PressStart;
     BasicScreen.Settle 3 BasicScreen.Watch_opening (Fulfilled ())]
    basic_located.

(** * Properties *)

(** ** Address formatting *)

Lemma truthy_string_present (f : option string) (s : string) :
  truthy_string f = Some s <-> f = Some s /\ s <> ""%string.
Proof.
  destruct f as [[|c r]|]; cbn; split; try intros [? ?]; try congruence.
  intros [= <-]. done.
Qed.

(** An empty component is skipped like a missing one. *)
Example formatAddress_empty_name :
  formatAddress (mkGeocodedAddress (Some ""%string) None None
                                   (Some "Springfield"%string) None)
  = "Springfield"%string.
Proof. reflexivity. Qed.

Lemma push_if_app (f : option string) (parts : list string) :
  push_if f parts = parts ++ omap truthy_string [f].
Proof.
  unfold push_if. cbn. destruct (truthy_string f); cbn; [done|].
  by rewrite app_nil_r.
Qed.

(** C9. For every geocoded component record, [formatAddress] yields the
    comma-joined concatenation, in the order name, street, district,
    city, region, of exactly the components that are present, and
    "Unknown location" when none is; a street "Main St" and a city
    "Springfield" alone give "Main St, Springfield". *)
Theorem formatAddress_correct :
  (forall a, formatAddress a = formatAddress_spec a)
  /\ formatAddress (mkGeocodedAddress None (Some "Main St") None
                                      (Some "Springfield") None)
     = "Main St, Springfield"%string
  /\ formatAddress (mkGeocodedAddress None None None None None)
     = "Unknown location"%string.
Proof.
  split; [|split; reflexivity].
  intros a.
  unfold formatAddress, formatAddress_spec, present_components, components.
  rewrite !push_if_app. cbn.
  destruct (truthy_string (name a)), (truthy_string (street a)),
    (truthy_string (district a)), (truthy_string (city a)),
    (truthy_string (region a)); reflexivity.
Qed.

(** ** Frame lemmas of the handlers *)

Lemma reverseGeocode_location (lat lon : float) (s : State) :
  location (reverseGeocode lat lon s) = location s.
Proof. unfold reverseGeocode, seq, fresh. cbn. by destruct (reverseGeocodeTimeout s). Qed.

Lemma reverseGeocode_error (lat lon : float) (s : State) :
  error (reverseGeocode lat lon s) = error s.
Proof. unfold reverseGeocode, seq, fresh. cbn. by destruct (reverseGeocodeTimeout s). Qed.

Lemma await_error (c : ProviderCall) (k : Cont) (s : State) :
  error (await c k s) = error s.
Proof. reflexivity. Qed.

Lemma set_pending_error (m : gmap nat Cont) (s : State) :
  error (set_pending m s) = error s.
Proof. reflexivity. Qed.

Lemma setIsLoading_error (b : bool) (s : State) :
  error (setIsLoading b s) = error s.
Proof. reflexivity. Qed.

Lemma getCurrentLocation_after_error (inner : bool) (c : Coords) (s : State) :
  error (getCurrentLocation_after inner (Fulfilled c) s) = error s.
Proof.
  unfold getCurrentLocation_after, seq.
  destruct inner; cbn -[reverseGeocode]; by rewrite reverseGeocode_error.
Qed.

Lemma getCurrentLocation_after_isLoading (inner : bool) (r : Result Coords)
  (s : State) :
  isLoading (getCurrentLocation_after inner r s) = false.
Proof. destruct inner; reflexivity. Qed.

(** ** Position updates and geocode completions *)

(** C8. Every watch callback stores a new Position made of the new
    reading and of the previous Position's address; every geocode
    completion leaves latitude, longitude, timestamp and accuracy of the
    stored Position as they are (and stores none when none is stored). *)
Theorem address_framing :
  (forall (c : Coords) (s : State),
     location (watch_callback c s)
     = Some (mkLocationData (coords_latitude c) (coords_longitude c) (now s)
               (accuracy_or_undefined (coords_accuracy c))
               (address_of (location s))))
  /\ (forall (r : Result (list LocationGeocodedAddress)) (s : State),
        match location s, location (timer_callback_after r s) with
        | Some p, Some q => same_reading p q
        | None, None => True
        | _, _ => False
        end)
  /\ (forall (p : nat) (r : Result (list LocationGeocodedAddress)) (s : State),
        match location s, location (step (Settle p Geocode_addresses r) s) with
        | Some p, Some q => same_reading p q
        | None, None => True
        | _, _ => False
        end).
Proof.
  assert (Hcb : forall r s,
    match location s, location (timer_callback_after r s) with
    | Some p, Some q => same_reading p q
    | None, None => True
    | _, _ => False
    end).
  { intros [[|a l]|] s; unfold timer_callback_after, skip; cbn;
      destruct (location s); cbn; unfold same_reading; auto. }
  split; [|split; [exact Hcb|]].
  - intros c s. unfold watch_callback, seq. rewrite reverseGeocode_location.
    cbn. by destruct (location s).
  - intros p r s. cbn. case_decide.
    + apply (Hcb r (set_pending (delete p (pending s)) s)).
    + destruct (location s); unfold same_reading; auto.
Qed.

(** ** Settling a promise that was just awaited *)

Lemma settle_awaited (c : ProviderCall) (k : Cont) (r : Result (answer k))
  (p : nat) (s : State) :
  p = nextId s ->
  step (Settle p k r) (await c k s)
  = resume k r (set_pending (delete p (<[p := k]> (pending s))) (await c k s)).
Proof.
  intros ->. unfold step.
  rewrite decide_True; [|unfold await, seq, fresh; cbn; apply lookup_insert_eq].
  f_equal.
Qed.

(** ** One-shot position *)

(** C5. In a state holding a Position, a [getCurrentLocation] whose
    provider call fails sets the [LOCATION_ERROR] error (its message asks
    to check the GPS signal) and leaves the Position as it was. *)
Theorem getCurrentLocation_failure_keeps_position
  (inner : bool) (s : State) (p : LocationData) :
  location s = Some p ->
  let s' := step (Settle (nextId s) (GetCurrentLocation_position inner) Rejected)
                 (getCurrentLocation inner s) in
  location s' = Some p /\ error s' = Some LOCATION_ERROR
  /\ isLoading s' = false
  /\ message LOCATION_ERROR
     = "Failed to get current location. Please check your GPS signal."%string.
Proof.
  intros Hp s'. subst s'. unfold getCurrentLocation, seq.
  rewrite settle_awaited by reflexivity. destruct inner; cbn; auto.
Qed.

Lemma getCurrentLocation_failure_keeps_position_witness :
  location ready = Some (with_address
    (mkLocationData 40.5%float (-73.25)%float 0 (Some 5%float) None)
    "Main St, Springfield")
  /\ location (step (Settle (nextId ready) (GetCurrentLocation_position false) Rejected)
                    (getCurrentLocation false ready))
     = location ready.
Proof.
  split; [reflexivity|].
  apply (getCurrentLocation_failure_keeps_position false ready
           (with_address (mkLocationData 40.5%float (-73.25)%float 0
                            (Some 5%float) None) "Main St, Springfield")).
  reflexivity.
Defined.

(** ** Geocode completions *)

(** C6, on an empty result: the geocode of [located] has fired and is in
    flight in [geocoding]; when the provider returns no component the
    stored Position keeps its address (none here), which is not the
    sentinel. *)
Lemma geocode_empty_result_keeps_address :
  pending geocoding !! 5%nat = Some Geocode_addresses
  /\ step (Settle 5 Geocode_addresses (Fulfilled [])) geocoding
     = set_pending ∅ geocoding
  /\ address_of (location (step (Settle 5 Geocode_addresses (Fulfilled []))
                                geocoding))
     <> Some "Address unavailable"%string.
Proof. split; [reflexivity|]. split; [reflexivity|]. vm_compute. discriminate. Qed.

(** C6, amended.  For every fired geocode, with a Position stored: when
    the provider call fails, the error state is left as it was and the
    Position's address becomes "Address unavailable"; when it returns an
    empty list, nothing changes; when it returns components, the
    formatted address of the first one is stored and the error state is
    left as it was. *)
Theorem geocode_completion (s : State) (p : LocationData) :
  location s = Some p ->
  (error (timer_callback_after Rejected s) = error s
   /\ location (timer_callback_after Rejected s)
      = Some (with_address p "Address unavailable"))
  /\ timer_callback_after (Fulfilled []) s = s
  /\ (forall a l,
        error (timer_callback_after (Fulfilled (a :: l)) s) = error s
        /\ location (timer_callback_after (Fulfilled (a :: l)) s)
           = Some (with_address p (formatAddress a))).
Proof.
  intros Hp. unfold timer_callback_after, skip. cbn. rewrite Hp. cbn.
  repeat split; reflexivity.
Qed.

Lemma geocode_completion_witness :
  location located
  = Some (mkLocationData 40.5%float (-73.25)%float 0 (Some 5%float) None)
  /\ location (timer_callback_after Rejected located)
     = Some (mkLocationData 40.5%float (-73.25)%float 0 (Some 5%float)
                            (Some "Address unavailable"%string)).
Proof.
  split; [reflexivity|].
  apply (geocode_completion located
           (mkLocationData 40.5%float (-73.25)%float 0 (Some 5%float) None)).
  reflexivity.
Defined.

(** ** Permission request *)

(** C7. [requestLocationPermission] asks whether the location service
    is enabled before anything else; a disabled service gives
    [LOCATION_DISABLED] and no further call; a refused foreground
    authorization gives [PERMISSION_DENIED], issues no position request
    and leaves the Position as it was, so an unset one stays unset; a
    granted one proceeds to [getCurrentPositionAsync]. *)
Theorem requestLocationPermission_outcomes (s : State) (st : PermissionStatus) :
  st <> granted ->
  let p := nextId s in
  let asked := requestLocationPermission s in
  let service_on := step (Settle p RequestPermission_services (Fulfilled true)) asked in
  (trace asked = trace s ++ [Call hasServicesEnabledAsync]
   /\ pending asked !! p = Some RequestPermission_services)
  /\ (let s' := step (Settle p RequestPermission_services (Fulfilled false)) asked in
      error s' = Some LOCATION_DISABLED /\ location s' = location s
      /\ trace s' = trace s ++ [Call hasServicesEnabledAsync])
  /\ (trace service_on = trace s ++ [Call hasServicesEnabledAsync;
                                     Call requestForegroundPermissionsAsync]
      /\ pending service_on !! S p = Some RequestPermission_foreground)
  /\ (let s' := step (Settle (S p) RequestPermission_foreground (Fulfilled st))
                     service_on in
      error s' = Some PERMISSION_DENIED /\ location s' = location s
      /\ (location s = None -> location s' = None)
      /\ trace s' = trace service_on)
  /\ (let s' := step (Settle (S p) RequestPermission_foreground (Fulfilled granted))
                     service_on in
      trace s' = trace service_on ++ [Call getCurrentPositionAsync]
      /\ pending s' !! S (S p) = Some (GetCurrentLocation_position true)).
Proof.
  intros Hst p asked service_on. subst p asked service_on.
  unfold requestLocationPermission, seq.
  rewrite !settle_awaited by reflexivity.
  cbn [resume requestLocationPermission_after_services].
  rewrite !settle_awaited by reflexivity.
  cbn [resume requestLocationPermission_after_foreground].
  split; [split; [reflexivity | apply lookup_insert_eq]|].
  split; [cbn; auto|].
  split; [split; [cbn; by rewrite <- app_assoc | apply lookup_insert_eq]|].
  split.
  - destruct st; [done| |]; cbn; auto.
  - unfold getCurrentLocation, seq. split; [reflexivity|]. apply lookup_insert_eq.
Qed.

Lemma requestLocationPermission_outcomes_witness :
  denied <> granted
  /\ error (step (Settle 2 RequestPermission_foreground (Fulfilled denied))
              (step (Settle 1 RequestPermission_services (Fulfilled true))
                    (requestLocationPermission mounting)))
     = Some PERMISSION_DENIED
  /\ location (step (Settle 2 RequestPermission_foreground (Fulfilled denied))
                 (step (Settle 1 RequestPermission_services (Fulfilled true))
                       (requestLocationPermission mounting)))
     = None.
Proof.
  assert (Hst : denied <> granted) by discriminate.
  split; [exact Hst|].
  pose proof (requestLocationPermission_outcomes mounting denied Hst) as H.
  cbv zeta in H. destruct H as (_ & _ & _ & (He & Hl & _) & _).
  split; [exact He | exact Hl].
Defined.

(** C10. [requestLocationPermission] clears the error before its first
    provider call is issued; a run in which the service is on, the
    permission granted and the fix obtained ends with no error, whatever
    error the state held before; and the loading flag is false where the
    function exits: service disabled, permission refused, a provider
    call failing, and after [getCurrentLocation] either way. *)
Theorem requestLocationPermission_error_and_loading
  (s t : State) (st : PermissionStatus) (c : Coords) :
  st <> granted ->
  let p := nextId s in
  (exists s0, requestLocationPermission s
              = await hasServicesEnabledAsync RequestPermission_services s0
              /\ error s0 = None /\ trace s0 = trace s)
  /\ error (requestLocationPermission s) = None
  /\ (let s' :=
        run [Settle p RequestPermission_services (Fulfilled true);
             Settle (S p) RequestPermission_foreground (Fulfilled granted);
             Settle (S (S p)) (GetCurrentLocation_position true) (Fulfilled c)]
            (requestLocationPermission s) in
      error s' = None /\ isLoading s' = false)
  /\ isLoading (requestLocationPermission_after_services (Fulfilled false) t) = false
  /\ isLoading (requestLocationPermission_after_services Rejected t) = false
  /\ isLoading (requestLocationPermission_after_foreground (Fulfilled st) t) = false
  /\ isLoading (requestLocationPermission_after_foreground Rejected t) = false
  /\ (forall r, isLoading (getCurrentLocation_after true r t) = false).
Proof.
  intros Hst p. subst p.
  split; [eexists; split; [reflexivity|]; split; reflexivity|].
  split; [reflexivity|].
  split.
  - unfold run, foldl, requestLocationPermission, seq.
    rewrite settle_awaited by reflexivity.
    cbn [resume requestLocationPermission_after_services].
    rewrite settle_awaited by reflexivity.
    cbn [resume requestLocationPermission_after_foreground].
    unfold getCurrentLocation, seq.
    rewrite settle_awaited by reflexivity.
    cbn [resume]. split; [|apply getCurrentLocation_after_isLoading].
    by rewrite getCurrentLocation_after_error, set_pending_error, await_error,
      setIsLoading_error, set_pending_error, await_error, set_pending_error,
      await_error.
  - split; [reflexivity|]. split; [reflexivity|].
    split; [destruct st; [done| |]; reflexivity|].
    split; [reflexivity|]. intros r. apply getCurrentLocation_after_isLoading.
Qed.

Lemma requestLocationPermission_error_and_loading_witness :
  undetermined <> granted
  /\ isLoading (requestLocationPermission_after_foreground
                  (Fulfilled undetermined) mounting) = false.
Proof.
  assert (Hst : undetermined <> granted) by discriminate.
  split; [exact Hst|].
  pose proof (requestLocationPermission_error_and_loading
                mounting mounting undetermined fix1 Hst) as H.
  cbv zeta in H. destruct H as (_ & _ & _ & _ & _ & H & _). exact H.
Defined.

(** ** Stopping *)


Lemma stopLocationTracking_refs (s : State) :
  locationSubscription (stopLocationTracking s) = None
  /\ reverseGeocodeTimeout (stopLocationTracking s) = None
  /\ isTracking (stopLocationTracking s) = false.
Proof.
  unfold stopLocationTracking, seq.
  destruct (locationSubscription s) eqn:Hs; cbn;
    destruct (reverseGeocodeTimeout s) eqn:Ht; cbn; rewrite ?Hs, ?Ht; auto.
Qed.

Lemma stopLocationTracking_trace (s : State) :
  trace (stopLocationTracking s) = trace s ++ stop_effects s.
Proof.
  unfold stopLocationTracking, stop_effects, seq.
  destruct (locationSubscription s) eqn:Hs; cbn;
    destruct (reverseGeocodeTimeout s) eqn:Ht; cbn;
    rewrite ?Hs, ?Ht, <- ?app_assoc, ?app_nil_r; reflexivity.
Qed.

Lemma stopLocationTracking_timers (s : State) :
  timers (stopLocationTracking s)
  = match reverseGeocodeTimeout s with
    | Some id => filter (fun t => timer_id t ≠ id) (timers s)
    | None => timers s
    end.
Proof.
  unfold stopLocationTracking, seq.
  destruct (locationSubscription s) eqn:Hs; cbn;
    destruct (reverseGeocodeTimeout s) eqn:Ht; cbn; rewrite ?Hs, ?Ht; auto.
Qed.

Lemma stopLocationTracking_watches (s : State) :
  watches (stopLocationTracking s)
  = match locationSubscription s with
    | Some h => watches s ∖ {[ h ]}
    | None => watches s
    end.
Proof.
  unfold stopLocationTracking, seq.
  destruct (locationSubscription s) eqn:Hs; cbn;
    destruct (reverseGeocodeTimeout s) eqn:Ht; cbn; rewrite ?Hs, ?Ht; auto.
Qed.

Lemma timers_wf_cleared (s : State) (id : nat) :
  timers_wf s -> reverseGeocodeTimeout s = Some id ->
  filter (fun t => timer_id t ≠ id) (timers s) = [].
Proof.
  intros [->|(t & -> & Hr)] Hid; [done|].
  rewrite Hid in Hr. injection Hr as ->.
  rewrite filter_cons, decide_False by (intros H; by apply H). done.
Qed.

Lemma stopLocationTracking_clears_timers (s : State) :
  timers_wf s -> timers (stopLocationTracking s) = [].
Proof.
  intros Hwf. rewrite stopLocationTracking_timers.
  destruct (reverseGeocodeTimeout s) eqn:Hr.
  - by apply timers_wf_cleared.
  - destruct Hwf as [->|(t & _ & ?)]; [done|congruence].
Qed.



(** ** Starting *)

(** C1, at a failing input.  The only guard against a second start is
    the rendering of the Start button while [isTracking] is false (line
    409), and [isTracking] is set after the first [await] of
    [startLocationTracking] (line 184).  From [ready], Start is pressed:
    tracking is still off, the button is still there, and a second
    press issues a second request.  When both have run to their end,
    tracking is active with two subscriptions live, 10 and 11; the ref
    holds 11 only.  Stop and the unmount cleanup remove 11; 10 stays
    live and its call-back still stores positions and has them
    geocoded. *)
Theorem double_start_opens_two_watches :
  (isTracking ready = false
   /\ isTracking (step PressStart ready) = false
   /\ trace (run [PressStart; PressStart] ready)
      = trace ready ++ [Call requestBackgroundPermissionsAsync;
                        Call requestBackgroundPermissionsAsync])
  /\ (isTracking started_twice = true
      /\ elements (watches started_twice) = [10%nat; 11%nat]
      /\ locationSubscription started_twice = Some 11%nat
      /\ trace started_twice
         = trace ready ++ [Call requestBackgroundPermissionsAsync;
                           Call requestBackgroundPermissionsAsync;
                           Call watchPositionAsync;
                           Call watchPositionAsync;
                           AlertShown "Tracking Started";
                           AlertShown "Tracking Started"])
  /\ (isTracking (run [PressStop; Unmount] started_twice) = false
      /\ locationSubscription (run [PressStop; Unmount] started_twice) = None
      /\ elements (watches (run [PressStop; Unmount] started_twice))
         = [10%nat]
      /\ trace (run [PressStop; Unmount] started_twice)
         = trace started_twice ++ [Remove 11; ClearTimeout 4;
                                   AlertShown "Tracking Stopped"])
  /\ (location (run [PressStop; WatchEmit 10 fix2; Elapse 1000] started_twice)
      = Some (mkLocationData 40.75%float (-73.5)%float 1000 None
                             (Some "Main St, Springfield"%string))
      /\ trace (run [PressStop; WatchEmit 10 fix2; Elapse 1000] started_twice)
         = trace started_twice
           ++ [Remove 11; ClearTimeout 4; AlertShown "Tracking Stopped";
               SetTimeout 12 1000;
               Call (reverseGeocodeAsync 40.75%float (-73.5)%float)]).
Proof. repeat apply conj; vm_compute; reflexivity. Qed.

(** Once [isTracking] is true the guard holds: the screen offers no
    Start control (line 409 renders Stop in its place), so a press on
    Start does nothing, no watch is opened and the stored subscription
    is the same. *)
Theorem start_not_offered_while_tracking (s : State) :
  isTracking s = true ->
  step PressStart s = s
  /\ locationSubscription (step PressStart s) = locationSubscription s
  /\ watches (step PressStart s) = watches s
  /\ trace (step PressStart s) = trace s.
Proof.
  intros H. assert (E : step PressStart s = s).
  { unfold step. rewrite H. by rewrite andb_false_r. }
  rewrite E. auto.
Qed.

Lemma start_not_offered_while_tracking_witness :
  isTracking tracking = true /\ step PressStart tracking = tracking.
Proof.
  split; [reflexivity|].
  apply (start_not_offered_while_tracking tracking). reflexivity.
Defined.

(** ** Unmounting *)

(** C3, at a failing input.  From [ready], Start is pressed and the
    background permission answered; the screen unmounts while
    [watchPositionAsync] is pending: tracking is on, no subscription is
    stored yet, so the cleanup releases none.  The promise then settles:
    subscription 8 is stored in the ref and stays live, the watch calls
    back, a timeout is set and a reverse-geocode call is issued, all
    after the unmount. *)
Theorem unmount_while_starting_leaks_watch :
  isTracking starting = true
  /\ pending starting !! 7%nat = Some StartTracking_watch
  /\ lifecycle unmounted_while_starting = Unmounted
  /\ locationSubscription unmounted_while_starting = None
  /\ trace unmounted_while_starting = trace starting ++ [ClearTimeout 4]
  /\ elements (watches
       (run [Settle 7 StartTracking_watch (Fulfilled ());
             WatchEmit 8 fix2; Elapse 1000] unmounted_while_starting))
     = [8%nat]
  /\ locationSubscription
       (run [Settle 7 StartTracking_watch (Fulfilled ());
             WatchEmit 8 fix2; Elapse 1000] unmounted_while_starting)
     = Some 8%nat
  /\ trace (run [Settle 7 StartTracking_watch (Fulfilled ());
                 WatchEmit 8 fix2; Elapse 1000] unmounted_while_starting)
     = trace unmounted_while_starting
       ++ [AlertShown "Tracking Started"; SetTimeout 9 1000;
           Call (reverseGeocodeAsync 40.75%float (-73.5)%float)]
  /\ location (run [Settle 7 StartTracking_watch (Fulfilled ());
                    WatchEmit 8 fix2; Elapse 1000] unmounted_while_starting)
     = Some (mkLocationData 40.75%float (-73.5)%float 1000 None
                            (Some "Main St, Springfield"%string)).
Proof. repeat apply conj; vm_compute; reflexivity. Qed.

(** ** The debounce timer *)

Lemma timers_wf_same (s s' : State) :
  timers s' = timers s -> reverseGeocodeTimeout s' = reverseGeocodeTimeout s ->
  timers_wf s -> timers_wf s'.
Proof. unfold timers_wf. intros -> ->. done. Qed.

Lemma timers_wf_filter (P : Timer -> Prop) `{!forall t, Decision (P t)}
  (s s' : State) :
  timers s' = filter P (timers s) ->
  reverseGeocodeTimeout s' = reverseGeocodeTimeout s ->
  timers_wf s -> timers_wf s'.
Proof.
  unfold timers_wf. intros -> -> [->|(t & -> & Hr)]; [by left|].
  rewrite filter_cons, filter_nil. case_decide; [right; eauto|by left].
Qed.

Lemma reverseGeocode_spec (lat lon : float) (s : State) :
  timers_wf s ->
  timers (reverseGeocode lat lon s) = [mkTimer (nextId s) (now s + 1000) lat lon]
  /\ reverseGeocodeTimeout (reverseGeocode lat lon s) = Some (nextId s).
Proof.
  intros Hwf. unfold reverseGeocode, seq, fresh.
  destruct (reverseGeocodeTimeout s) as [id|] eqn:Hr; cbn.
  - rewrite (timers_wf_cleared s id Hwf Hr). done.
  - destruct Hwf as [->|(t & _ & ?)]; [done|congruence].
Qed.

Lemma reverseGeocode_timers_wf (lat lon : float) (s : State) :
  timers_wf s -> timers_wf (reverseGeocode lat lon s).
Proof.
  intros Hwf. destruct (reverseGeocode_spec lat lon s Hwf) as [Ht Hr].
  right. eexists. split; [exact Ht|]. by rewrite Hr.
Qed.

Lemma reverseGeocode_frame (lat lon : float) (s : State) :
  watches (reverseGeocode lat lon s) = watches s
  /\ now (reverseGeocode lat lon s) = now s
  /\ nextId (reverseGeocode lat lon s) = S (nextId s)
  /\ geocode_calls (trace (reverseGeocode lat lon s)) = geocode_calls (trace s).
Proof.
  unfold reverseGeocode, seq, fresh, geocode_calls.
  destruct (reverseGeocodeTimeout s); cbn; rewrite ?omap_app; cbn;
    rewrite ?app_nil_r; done.
Qed.

Lemma watch_callback_timers_wf (c : Coords) (s : State) :
  timers_wf s -> timers_wf (watch_callback c s).
Proof. intros Hwf. unfold watch_callback, seq. by apply reverseGeocode_timers_wf. Qed.

Lemma fire_callbacks_frame (d : list Timer) (s : State) :
  timers (foldl (fun s t => timer_callback t s) s d) = timers s
  /\ reverseGeocodeTimeout (foldl (fun s t => timer_callback t s) s d)
     = reverseGeocodeTimeout s
  /\ watches (foldl (fun s t => timer_callback t s) s d) = watches s
  /\ now (foldl (fun s t => timer_callback t s) s d) = now s
  /\ geocode_calls (trace (foldl (fun s t => timer_callback t s) s d))
     = geocode_calls (trace s)
       ++ map (fun t => (timer_latitude t, timer_longitude t)) d.
Proof.
  revert s. induction d as [|t d IH]; intros s; cbn [foldl map].
  - by rewrite app_nil_r.
  - destruct (IH (timer_callback t s)) as (-> & -> & -> & -> & ->).
    repeat apply conj; try reflexivity.
    unfold timer_callback, await, seq, fresh, geocode_calls. cbn.
    rewrite omap_app. cbn. by rewrite <- app_assoc.
Qed.

Lemma fire_due_timers_wf (s : State) : timers_wf s -> timers_wf (fire_due s).
Proof.
  intros Hwf. unfold fire_due.
  destruct (fire_callbacks_frame (filter (fun t => due t <= now s) (timers s))
              (set_timers (filter (fun t => ¬ due t <= now s) (timers s)) s))
    as (Ht & Hr & _).
  eapply (timers_wf_filter (fun t => ¬ due t <= now s)); [exact Ht|exact Hr|exact Hwf].
Qed.

Lemma stopLocationTracking_timers_wf (s : State) :
  timers_wf s -> timers_wf (stopLocationTracking s).
Proof.
  intros Hwf. left. by apply stopLocationTracking_clears_timers.
Qed.

Lemma resume_timers_wf (k : Cont) (r : Result (answer k)) (s : State) :
  timers_wf s -> timers_wf (resume k r s).
Proof.
  intros Hwf. destruct k; cbn [resume answer] in *.
  - destruct r as [[|]|]; by eapply timers_wf_same.
  - destruct r as [[| |]|]; by eapply timers_wf_same.
  - destruct r as [c|].
    + unfold getCurrentLocation_after, seq.
      eapply timers_wf_same; [..|eapply (reverseGeocode_timers_wf
        (coords_latitude c) (coords_longitude c)
        (setLocation (fun _ => Some (mkLocationData (coords_latitude c)
           (coords_longitude c) (now s)
           (accuracy_or_undefined (coords_accuracy c)) None)) s)), Hwf];
        by destruct inner.
    + destruct inner; by eapply timers_wf_same.
  - destruct r as [[| |]|]; by eapply timers_wf_same.
  - destruct r as [[]|]; by eapply timers_wf_same.
  - destruct r as [[|a l]|]; by eapply timers_wf_same.
Qed.

Lemma step_timers_wf (e : Event) (s : State) :
  timers_wf s -> timers_wf (step e s).
Proof.
  intros Hwf. destruct e; unfold step.
  - destruct (lifecycle s); [by eapply timers_wf_same|done..].
  - destruct (is_mounted s); [|done]. unfold unmount_cleanup, seq.
    pose proof (stopLocationTracking_clears_timers s Hwf) as Ht.
    destruct (stopLocationTracking_refs s) as (_ & Hr & _).
    rewrite Hr. left. exact Ht.
  - destruct (_ && _); [by eapply timers_wf_same|done].
  - destruct (_ && _); [by eapply timers_wf_same|done].
  - destruct (_ && _); [|done]. unfold handleStopTracking, seq.
    eapply timers_wf_same; [..|apply (stopLocationTracking_timers_wf s Hwf)]; done.
  - destruct (_ && _); [|done]. unfold completeDelivery.
    destruct (location s); by eapply timers_wf_same.
  - destruct (confirmDialog s); [|done]. unfold completeDelivery_confirm, seq.
    eapply timers_wf_same;
      [..|apply (stopLocationTracking_timers_wf (set_confirmDialog false s))];
      done.
  - by eapply timers_wf_same.
  - destruct (_ && _); [by eapply timers_wf_same|done].
  - case_decide; [|done]. apply resume_timers_wf. by eapply timers_wf_same.
  - case_decide; [|done]. by apply watch_callback_timers_wf.
  - case_decide; [|done]. apply fire_due_timers_wf. by eapply timers_wf_same.
Qed.

Lemma run_timers_wf (es : list Event) (s : State) :
  timers_wf s -> timers_wf (run es s).
Proof.
  revert s. induction es as [|e es IH]; intros s Hwf; [done|].
  apply IH. by apply step_timers_wf.
Qed.

Lemma timers_wf_initial : timers_wf initial.
Proof. by left. Qed.

Lemma timers_wf_length (s : State) : timers_wf s -> (length (timers s) <= 1)%nat.
Proof. intros [->|(t & -> & _)]; cbn; lia. Qed.

Lemma armed_timers_wf (c : Coords) (age : Z) (s : State) :
  armed c age s -> timers_wf s.
Proof. intros (id & Ht & Hr). right. eexists. split; [exact Ht|exact Hr]. Qed.

(** A position update cancels the pending timeout and sets one for its
    own coordinates, without issuing a geocode call. *)
Lemma watch_callback_armed (c : Coords) (s : State) :
  timers_wf s ->
  armed c 0 (watch_callback c s)
  /\ watches (watch_callback c s) = watches s
  /\ geocode_calls (trace (watch_callback c s)) = geocode_calls (trace s).
Proof.
  intros Hwf. unfold watch_callback, seq. cbn [latitude longitude].
  set (s1 := setLocation _ s).
  assert (Hwf1 : timers_wf s1) by (by eapply timers_wf_same).
  destruct (reverseGeocode_spec (coords_latitude c) (coords_longitude c) s1 Hwf1)
    as [Ht Hr].
  destruct (reverseGeocode_frame (coords_latitude c) (coords_longitude c) s1)
    as (Hw & Hn & _ & Hg).
  split; [|split; [by rewrite Hw|by rewrite Hg]].
  exists (nextId s1). rewrite Ht, Hr, Hn, Z.sub_0_r. done.
Qed.

(** While the armed timeout is younger than a second, time passing fires
    nothing. *)
Lemma elapse_armed_quiet (c : Coords) (age d : Z) (s : State) :
  armed c age s -> 0 <= d -> age + d < 1000 ->
  armed c (age + d) (step (Elapse d) s)
  /\ watches (step (Elapse d) s) = watches s
  /\ geocode_calls (trace (step (Elapse d) s)) = geocode_calls (trace s).
Proof.
  intros (id & Ht & Hr) Hd Hage. unfold step. rewrite decide_True by done.
  unfold fire_due. cbn [timers now set_now]. rewrite Ht.
  rewrite !filter_cons, !filter_nil. cbn [due].
  rewrite (decide_True (P := ¬ _)) by lia.
  rewrite (decide_False (P := _ <= _)) by lia. cbn [foldl].
  split; [|done]. exists id. cbn. split; [|done].
  do 2 f_equal. lia.
Qed.

(** Once it is a second old, it fires: one call, for its coordinates. *)
Lemma elapse_armed_fires (c : Coords) (age d : Z) (s : State) :
  armed c age s -> 0 <= d -> 1000 <= age + d ->
  timers (step (Elapse d) s) = []
  /\ geocode_calls (trace (step (Elapse d) s))
     = geocode_calls (trace s) ++ [(coords_latitude c, coords_longitude c)].
Proof.
  intros (id & Ht & Hr) Hd Hage. unfold step. rewrite decide_True by done.
  unfold fire_due. cbn [timers now set_now]. rewrite Ht.
  rewrite !filter_cons, !filter_nil. cbn [due].
  rewrite (decide_False (P := ¬ _)) by lia.
  rewrite (decide_True (P := _ <= _)) by lia. cbn [foldl].
  split; [done|].
  unfold timer_callback, await, seq, fresh, geocode_calls. cbn.
  by rewrite omap_app.
Qed.

Lemma run_cons (e : Event) (es : list Event) (s : State) :
  run (e :: es) s = run es (step e s).
Proof. reflexivity. Qed.

Lemma burst_armed (h : nat) (us : list (Z * Coords)) (c0 : Coords) (s : State) :
  armed c0 0 s -> h ∈ watches s ->
  Forall (fun u => 0 <= u.1 < 1000) us ->
  armed (last_reading c0 us) 0 (run (burst h us) s)
  /\ geocode_calls (trace (run (burst h us) s)) = geocode_calls (trace s).
Proof.
  revert c0 s. induction us as [|[d c] us IH]; intros c0 s Ha Hh Hus; [done|].
  apply Forall_cons in Hus as [[Hd0 Hd] Hus]. cbn in Hd0, Hd.
  cbn [burst last_reading]. rewrite !run_cons.
  destruct (elapse_armed_quiet c0 0 d s Ha Hd0 ltac:(lia)) as (Ha1 & Hw1 & Hg1).
  set (s1 := step (Elapse d) s) in *.
  assert (E : step (WatchEmit h c) s1 = watch_callback c s1).
  { unfold step. rewrite decide_True; [done|]. by rewrite Hw1. }
  rewrite E.
  destruct (watch_callback_armed c s1 (armed_timers_wf _ _ _ Ha1))
    as (Ha2 & Hw2 & Hg2).
  destruct (IH c (watch_callback c s1) Ha2) as [Ha3 Hg3]; [|done|].
  { by rewrite Hw2, Hw1. }
  split; [done|]. by rewrite Hg3, Hg2, Hg1.
Qed.

(** C2. In a burst of position updates, each less than 1000 ms after
    the one before it, no reverse-geocode call is issued; at its end one
    timeout is pending, for the coordinates of the last update; it
    fires, with one call for those coordinates, once 1000 ms have passed
    without an update, and not before.  Every update leaves exactly one
    timeout pending, its own, and no run of the screen ever has two. *)
Theorem reverse_geocode_debounced
  (s : State) (h : nat) (c0 : Coords) (us : list (Z * Coords)) (D : Z) :
  timers_wf s -> h ∈ watches s ->
  Forall (fun u => 0 <= u.1 < 1000) us -> 0 <= D ->
  let s' := run (WatchEmit h c0 :: burst h us) s in
  let c := last_reading c0 us in
  geocode_calls (trace s') = geocode_calls (trace s)
  /\ armed c 0 s'
  /\ geocode_calls (trace (step (Elapse D) s'))
     = geocode_calls (trace s)
       ++ (if decide (1000 <= D)
           then [(coords_latitude c, coords_longitude c)] else [])
  /\ (forall c' t, timers_wf t -> armed c' 0 (watch_callback c' t))
  /\ (forall es, (length (timers (run es s)) <= 1)%nat).
Proof.
  intros Hwf Hh Hus HD s' c. subst s' c.
  rewrite !run_cons.
  assert (E : step (WatchEmit h c0) s = watch_callback c0 s).
  { unfold step. by rewrite decide_True. }
  rewrite E. destruct (watch_callback_armed c0 s Hwf) as (Ha & Hw & Hg).
  destruct (burst_armed h us c0 (watch_callback c0 s) Ha) as [Ha' Hg'];
    [by rewrite Hw|done|].
  split; [by rewrite Hg', Hg|]. split; [done|]. split.
  - case_decide.
    + destruct (elapse_armed_fires _ 0 D _ Ha' HD ltac:(lia)) as [_ ->].
      by rewrite Hg', Hg.
    + destruct (elapse_armed_quiet _ 0 D _ Ha' HD ltac:(lia)) as (_ & _ & ->).
      by rewrite app_nil_r, Hg', Hg.
  - split.
    + intros c' t Ht. by apply watch_callback_armed.
    + intros es. by apply timers_wf_length, run_timers_wf.
Qed.

Lemma reverse_geocode_debounced_witness :
  geocode_calls
    (trace (step (Elapse 1000)
              (run (WatchEmit 8 fix2 :: burst 8 [(400, fix1); (999, fix2); (5, fix1)])
                   tracking)))
  = geocode_calls (trace tracking) ++ [(40.5%float, (-73.25)%float)].
Proof.
  assert (Hwf : timers_wf tracking) by (left; reflexivity).
  assert (Hh : 8%nat ∈ watches tracking)
    by (apply (bool_decide_unpack _); vm_compute; exact I).
  assert (Hus : Forall (fun u : Z * Coords => 0 <= u.1 < 1000)
                       [(400, fix1); (999, fix2); (5, fix1)])
    by (repeat constructor; cbn; lia).
  pose proof (reverse_geocode_debounced tracking 8 fix2
                [(400, fix1); (999, fix2); (5, fix1)] 1000
                Hwf Hh Hus ltac:(lia)) as H.
  cbv zeta in H. destruct H as (_ & _ & H & _). exact H.
Defined.

(** ** Unmounting when no handler is suspended *)

Lemma stopLocationTracking_frame (s : State) :
  pending (stopLocationTracking s) = pending s
  /\ confirmDialog (stopLocationTracking s) = confirmDialog s.
Proof.
  unfold stopLocationTracking, seq.
  destruct (locationSubscription s); cbn;
    destruct (reverseGeocodeTimeout s); cbn; done.
Qed.

(** When no promise is pending, the cleanup leaves nothing behind. *)
Lemma unmount_quiescent (s : State) :
  lifecycle s = Mounted -> pending s = ∅ -> confirmDialog s = false ->
  timers_wf s -> watches_wf s ->
  lifecycle (step Unmount s) = Unmounted
  /\ locationSubscription (step Unmount s) = None
  /\ reverseGeocodeTimeout (step Unmount s) = None
  /\ idle (step Unmount s).
Proof.
  intros Hl Hp Hc Hwf Hw. unfold step, is_mounted. rewrite Hl.
  unfold unmount_cleanup, seq.
  destruct (stopLocationTracking_refs s) as (Hs & Hr & _).
  pose proof (stopLocationTracking_clears_timers s Hwf) as Ht.
  pose proof (stopLocationTracking_watches s) as Hws.
  destruct (stopLocationTracking_frame s) as [Hpe Hcd].
  rewrite Hr. unfold idle. cbn -[stopLocationTracking].
  rewrite Hs, Hr, Ht, Hws, Hpe, Hcd.
  repeat apply conj; try done.
  destruct (locationSubscription s) as [h|] eqn:E.
  - apply set_eq. intros x. split; [|set_solver].
    intros Hx. apply elem_of_difference in Hx as [Hx Hne].
    apply Hw in Hx. rewrite E in Hx. set_solver.
  - apply set_eq. intros x. split; [|set_solver].
    intros Hx. apply Hw in Hx. congruence.
Qed.

(** After that, nothing happens to the component but time passing. *)
Lemma unmounted_idle_inert (u : State) (e : Event) :
  lifecycle u = Unmounted -> idle u ->
  step e u = u \/ exists d, e = Elapse d /\ step e u = set_now (now u + d) u.
Proof.
  intros Hl (Hw & Ht & Hp & Hc).
  destruct e; unfold step, is_mounted; rewrite ?Hl, ?Hc; cbn [andb]; auto.
  - left. destruct u; cbn in *; by subst.
  - left. rewrite decide_False; [done|]. rewrite Hp, lookup_empty. done.
  - left. rewrite decide_False; [done|]. rewrite Hw. set_solver.
  - case_decide; [right|by left]. exists d. split; [done|].
    unfold fire_due. cbn [timers now set_now]. rewrite Ht.
    cbn. destruct u; cbn in *; by subst.
Qed.

(** * Further properties of the screen *)

(** ** Elapsed time *)

Lemma padStart_two_digits (z : Z) :
  0 <= z < 100 -> String.length (padStart 2 "0"%char (number_toString z)) = 2%nat.
Proof.
  intros Hz.
  assert (H : Forall (fun z => String.length (padStart 2 "0"%char (number_toString z))
                               = 2%nat) (seqZ 0 100)).
  { apply (bool_decide_unpack _). vm_compute. exact I. }
  rewrite Forall_forall in H. apply H. apply elem_of_seqZ. lia.
Qed.

Lemma whole_seconds (e : Z) :
  0 <= e ->
  Z.rem e 60000 / 1000 = (e / 1000) mod 60
  /\ e / 60000 = e / 1000 / 60.
Proof.
  intros He. rewrite Z.rem_mod_nonneg by lia.
  change 60000 with (1000 * 60). rewrite Z.div_div by lia.
  split; [|reflexivity].
  rewrite Z.rem_mul_r by lia.
  rewrite (Z.mul_comm 1000), Z.div_add by lia.
  rewrite Z.div_small by (apply Z.mod_pos_bound; lia). lia.
Qed.

(** X1. With a start time not after the clock, [getElapsedTime] shows
    the whole seconds elapsed as minutes, a colon and seconds: the
    seconds are below 60 and take two characters, the minutes are not
    wrapped at 60, and together they are the elapsed time in seconds. *)
Theorem getElapsedTime_whole_seconds (s : State) (start : Z) :
  startTime s = Some start -> start <= now s ->
  let e := now s - start in
  let m := e / 60000 in
  let sec := (e / 1000) mod 60 in
  getElapsedTime s
  = String.app (number_toString m)
      (String.app ":" (padStart 2 "0"%char (number_toString sec)))
  /\ String.length (padStart 2 "0"%char (number_toString sec)) = 2%nat
  /\ 0 <= sec < 60
  /\ 60 * m + sec = e / 1000.
Proof.
  intros Hs Hle e m sec. subst m sec.
  assert (He : 0 <= e) by (subst e; lia).
  destruct (whole_seconds e He) as [H1 H2].
  assert (Hsec : 0 <= (e / 1000) mod 60 < 60) by (apply Z.mod_pos_bound; lia).
  split; [|split; [apply padStart_two_digits; lia|split; [done|]]].
  - unfold getElapsedTime. rewrite Hs. fold e. cbv zeta. by rewrite H1.
  - rewrite H2. symmetry. apply Z.div_mod. lia.
Qed.

(** ** Invariants of every run *)

Ltac simpl_state :=
  cbn [location isTracking isLoading error startTime locationSubscription
       reverseGeocodeTimeout lifecycle confirmDialog now watches timers
       pending nextId trace
       setLocation setIsTracking setIsLoading setError setStartTime
       set_locationSubscription set_reverseGeocodeTimeout set_lifecycle
       set_confirmDialog set_now set_watches set_timers set_pending
       set_nextId emit resume answer andb orb negb] in *.

Ltac unfold_handlers :=
  unfold mount, unmount_cleanup, requestLocationPermission,
    requestLocationPermission_catch, requestLocationPermission_after_services,
    requestLocationPermission_after_foreground, getCurrentLocation,
    getCurrentLocation_after, startLocationTracking,
    startLocationTracking_catch, startLocationTracking_after_background,
    startLocationTracking_after_watch, watch_callback, stopLocationTracking,
    handleStopTracking, completeDelivery, completeDelivery_confirm,
    reverseGeocode, timer_callback, timer_callback_after, patch_address,
    await, fresh, clearTimeout, remove, alert, seq, skip in *.

(** Straight-line code: the refs and the position are fixed first, then
    the handlers unfold to one explicit state. *)
Ltac crunch s :=
  let Hsub := fresh "Hsub" in
  let Hto := fresh "Hto" in
  let Hloc := fresh "Hloc" in
  destruct (locationSubscription s) eqn:Hsub;
  destruct (reverseGeocodeTimeout s) eqn:Hto;
  destruct (location s) eqn:Hloc;
  repeat (progress (unfold_handlers; simpl_state; rewrite ?Hsub, ?Hto, ?Hloc)).

(** The cases of [step]: afterwards each goal is about one straight-line
    piece of handler code; time passing is left to the caller. *)
Ltac step_cases e s :=
  destruct e as [| | | | | | | | |?p ?k ?r|?h ?c|?d];
  unfold step, is_mounted, is_some;
  [ destruct (lifecycle s); crunch s
  | destruct (lifecycle s); crunch s
  | destruct (lifecycle s), (error s); crunch s
  | destruct (lifecycle s), (isTracking s), (isLoading s), (error s); crunch s
  | destruct (lifecycle s), (isTracking s); crunch s
  | destruct (lifecycle s); crunch s
  | destruct (confirmDialog s); crunch s
  | crunch s
  | destruct (lifecycle s), (isLoading s); crunch s
  | case_decide;
    [match goal with k : Cont |- _ => destruct k as [| |[|]| | |] end;
     match goal with
     | r : Result _ |- _ =>
         cbn [answer] in r; destruct r as [?a|]; try destruct a
     end; crunch s
    |]
  | case_decide; [crunch s|]
  | case_decide ].

(** Once a predicate on the state is unfolded, the projections reduce. *)
Ltac rew_refs :=
  repeat match goal with
    | H : locationSubscription ?s = _ |- _ => is_var s; progress rewrite H
    | H : reverseGeocodeTimeout ?s = _ |- _ => is_var s; progress rewrite H
    | H : location ?s = _ |- _ => is_var s; progress rewrite H
    end.

Ltac resimpl := repeat (progress (simpl_state; rew_refs)).

Lemma fire_callbacks_inv (P : State -> Prop) :
  (forall t s, P s -> P (timer_callback t s)) ->
  forall d s, P s -> P (foldl (fun s t => timer_callback t s) s d).
Proof.
  intros Hstep d. induction d as [|t d IH]; intros s Hs; [done|].
  cbn [foldl]. apply IH, Hstep, Hs.
Qed.

Lemma run_inv (P : State -> Prop) :
  (forall e s, P s -> P (step e s)) ->
  forall es s, P s -> P (run es s).
Proof.
  intros Hstep es. induction es as [|e es IH]; intros s Hs; [done|].
  rewrite run_cons. apply IH, Hstep, Hs.
Qed.

Ltac solve_fresh Hp Hw :=
  unfold handles_fresh; simpl_state; split;
  [ let Hq := fresh "Hq" in
    intros ? ? Hq;
    repeat first
      [ apply lookup_insert_Some in Hq as [[<- _]|[_ Hq]]; [lia|]
      | apply lookup_delete_Some in Hq as [_ Hq] ];
    apply Hp in Hq; lia
  | let Hx := fresh "Hx" in
    intros ? Hx;
    repeat first
      [ apply elem_of_union in Hx as [Hx|Hx%elem_of_singleton]; [|subst; lia]
      | apply elem_of_difference in Hx as [Hx _] ];
    apply Hw in Hx; lia ].

Lemma timer_callback_handles_fresh (t : Timer) (s : State) :
  handles_fresh s -> handles_fresh (timer_callback t s).
Proof. intros [Hp Hw]. unfold_handlers. solve_fresh Hp Hw. Qed.

Lemma step_handles_fresh (e : Event) (s : State) :
  handles_fresh s -> handles_fresh (step e s).
Proof.
  intros [Hp Hw]. step_cases e s.
  all: try done.
  all: try solve_fresh Hp Hw.
  unfold fire_due. apply fire_callbacks_inv.
  - apply timer_callback_handles_fresh.
  - solve_fresh Hp Hw.
Qed.

Lemma step_spinner_wf (e : Event) (s : State) :
  handles_fresh s -> spinner_wf s -> spinner_wf (step e s).
Proof.
  intros [Hp Hw] Hsp. step_cases e s.
  all: try done.
  all: try (unfold spinner_wf in *; simpl_state; intros Hl; try discriminate Hl;
            first
              [ eexists _, _; split; [apply lookup_insert_eq|reflexivity]
              | destruct (Hsp Hl) as (q & kq & Hq & Hlq); exists q, kq;
                split; [|done];
                rewrite ?lookup_insert_ne by (apply Hp in Hq; lia);
                rewrite ?lookup_delete_ne
                  by (intros ->; match goal with
                                 | H : pending _ !! _ = Some _ |- _ =>
                                     rewrite Hq in H; injection H as ->
                                 end; discriminate Hlq);
                done ]).
  unfold fire_due.
  apply (fire_callbacks_inv (fun s => handles_fresh s /\ spinner_wf s)).
  all: cycle 1.
  - split; [solve_fresh Hp Hw|]. exact Hsp.
  - clear. intros t s [Hf Hsp].
    split; [by apply timer_callback_handles_fresh|].
    destruct Hf as [Hp _]. unfold_handlers. unfold spinner_wf in *.
    simpl_state. intros Hl. destruct (Hsp Hl) as (q & kq & Hq & Hlq).
    exists q, kq. split; [|done].
    rewrite lookup_insert_ne by (apply Hp in Hq; lia). done.
Qed.

Lemma removed_snoc (tr : list Effect) (e : Effect) :
  removed (tr ++ [e])
  = removed tr ++ match e with Remove h => [h] | _ => [] end.
Proof. unfold removed. rewrite omap_app. by destruct e. Qed.

Lemma accuracy_or_undefined_truthy (a : option float) (x : float) :
  accuracy_or_undefined a = Some x -> falsy_number x = false.
Proof.
  destruct a as [y|]; cbn; [|done].
  destruct (falsy_number y) eqn:E; [done|]. by intros [= <-].
Qed.

Lemma step_accuracy_truthy (e : Event) (s : State) :
  accuracy_truthy s -> accuracy_truthy (step e s).
Proof.
  intros Ha. step_cases e s.
  all: try done.
  all: try (unfold accuracy_truthy in *; resimpl;
            intros q x Hq Hx; first
              [ discriminate Hq
              | eapply Ha; [exact Hq|exact Hx]
              | injection Hq as <-; cbn [accuracy] in Hx; first
                  [ by eapply accuracy_or_undefined_truthy
                  | eapply Ha; [eassumption|exact Hx] ] ]).
  unfold fire_due. apply (fire_callbacks_inv accuracy_truthy); [|exact Ha].
  clear. intros t s Ha. exact Ha.
Qed.

Lemma timer_callback_releases_wf (t : Timer) (s : State) :
  releases_wf s -> releases_wf (timer_callback t s).
Proof.
  intros (Ha & Hb & Hc). unfold_handlers. unfold releases_wf. simpl_state.
  rewrite removed_snoc, app_nil_r. split; [exact Ha|split; [|exact Hc]].
  intros x Hx. destruct (Hb x Hx). split; [done|lia].
Qed.

Lemma step_releases_wf (e : Event) (s : State) :
  handles_fresh s -> releases_wf s -> releases_wf (step e s).
Proof.
  intros [Hp Hw] (Ha & Hb & Hc). step_cases e s.
  all: try done.
  all: try (unfold releases_wf; resimpl; rewrite ?removed_snoc, ?app_nil_r;
            split; [|split]; [..|exact Hc]; [exact Ha|];
            intros x Hx; destruct (Hb x Hx); split; [done|lia]).
  (* a subscription is removed *)
  all: try (unfold releases_wf; resimpl; rewrite ?removed_snoc, ?app_nil_r;
            split; [intros ? [=]|split];
            [ intros x [Hx|Hx%list_elem_of_singleton]%elem_of_app;
              [ destruct (Hb x Hx); split;
                [by intros [? ?]%elem_of_difference|lia]
              | subst; split; [|by apply Hw, Ha];
                intros [_ Hn]%elem_of_difference;
                by apply Hn, elem_of_singleton ]
            | apply NoDup_app; split; [exact Hc|];
              split; [|apply NoDup_singleton];
              intros x Hx Hx2%list_elem_of_singleton; subst;
              destruct (Hb _ Hx) as [Hn _]; by apply Hn, Ha ]).
  (* a subscription is stored *)
  all: try (unfold releases_wf; resimpl; rewrite ?removed_snoc, ?app_nil_r;
            split; [intros ? [= <-]; by apply elem_of_union_r, elem_of_singleton
                   |split; [|exact Hc]];
            intros x Hx; destruct (Hb x Hx); split; [|lia];
            apply not_elem_of_union; split; [done|];
            rewrite elem_of_singleton; lia).
  unfold fire_due. apply (fire_callbacks_inv releases_wf).
  - apply timer_callback_releases_wf.
  - unfold releases_wf. simpl_state. auto.
Qed.

Lemma handles_fresh_initial : handles_fresh initial.
Proof.
  split; [intros p k H; unfold initial in H; cbn [pending] in H;
          by rewrite lookup_empty in H|].
  intros h Hh. unfold initial in Hh. cbn [watches] in Hh.
  by apply not_elem_of_empty in Hh.
Qed.

Lemma releases_wf_initial : releases_wf initial.
Proof.
  split; [intros h [=]|]. split; [|apply NoDup_nil_2].
  intros h Hh. unfold initial in Hh. cbn in Hh. by apply not_elem_of_nil in Hh.
Qed.

Lemma run_handles_fresh (es : list Event) : handles_fresh (run es initial).
Proof. apply run_inv; [apply step_handles_fresh|apply handles_fresh_initial]. Qed.

(** X2. In every run of the screen from its initial state, the loading
    flag is on only while a request of [requestLocationPermission] or
    [getCurrentLocation] is waiting for the provider. *)
Theorem spinner_only_while_requesting (es : list Event) :
  isLoading (run es initial) = true ->
  exists p k, pending (run es initial) !! p = Some k /\ loader k = true.
Proof.
  apply (run_inv (fun s => handles_fresh s /\ spinner_wf s)).
  - intros e s [Hf Hs]. split; [by apply step_handles_fresh|].
    by apply step_spinner_wf.
  - split; [apply handles_fresh_initial|]. intros [=].
Qed.

Lemma spinner_only_while_requesting_witness :
  isLoading (run [Mount; Settle 1 RequestPermission_services (Fulfilled true)]
                 initial) = true
  /\ exists p k,
       pending (run [Mount; Settle 1 RequestPermission_services (Fulfilled true)]
                    initial) !! p = Some k
       /\ loader k = true.
Proof.
  split; [reflexivity|].
  apply (spinner_only_while_requesting
           [Mount; Settle 1 RequestPermission_services (Fulfilled true)]).
  reflexivity.
Defined.

(** X3. In every run of the screen from its initial state, [remove()]
    is called at most once on a subscription, the subscription the ref
    holds is live, and a removed subscription is not. *)
Theorem subscriptions_released_once (es : list Event) :
  NoDup (removed (trace (run es initial)))
  /\ (forall h, locationSubscription (run es initial) = Some h ->
                h ∈ watches (run es initial))
  /\ (forall h, h ∈ removed (trace (run es initial)) ->
                h ∉ watches (run es initial)).
Proof.
  assert (H : handles_fresh (run es initial) /\ releases_wf (run es initial)).
  { apply (run_inv (fun s => handles_fresh s /\ releases_wf s)).
    - intros e s [Hf Hr]. split; [by apply step_handles_fresh|].
      by apply step_releases_wf.
    - split; [apply handles_fresh_initial|apply releases_wf_initial]. }
  destruct H as [_ (Ha & Hb & Hc)]. split; [exact Hc|]. split; [exact Ha|].
  intros h Hh. by apply Hb.
Qed.

(** X4. In every run of the screen from its initial state, an accuracy
    stored with the position is neither [0] nor [NaN]: the test
    [location.accuracy &&] of the render is true whenever one is
    stored. *)
Theorem stored_accuracy_truthy (es : list Event) (p : LocationData) (a : float) :
  location (run es initial) = Some p -> accuracy p = Some a ->
  falsy_number a = false.
Proof.
  revert p a. change (accuracy_truthy (run es initial)).
  apply run_inv; [apply step_accuracy_truthy|]. intros p a [=].
Qed.

Lemma stored_accuracy_truthy_witness :
  location located
  = Some (mkLocationData 40.5%float (-73.25)%float 0 (Some 5%float) None)
  /\ falsy_number 5%float = false.
Proof.
  split; [reflexivity|].
  apply (stored_accuracy_truthy
           [Mount;
            Settle 1 RequestPermission_services (Fulfilled true);
            Settle 2 RequestPermission_foreground (Fulfilled granted);
            Settle 3 (GetCurrentLocation_position true) (Fulfilled fix1)]
           (mkLocationData 40.5%float (-73.25)%float 0 (Some 5%float) None)
           5%float); reflexivity.
Defined.

Lemma getElapsedTime_whole_seconds_witness :
  startTime (step (Elapse 75000) tracking) = Some 1000
  /\ getElapsedTime (step (Elapse 75000) tracking) = "1:15"%string.
Proof.
  split; [reflexivity|].
  exact (proj1 (getElapsedTime_whole_seconds (step (Elapse 75000) tracking) 1000
                  eq_refl ltac:(vm_compute; discriminate))).
Defined.

(** ** Status line and controls *)

(** X5. The header reads "Ready to track" exactly when a press on Start
    starts a tracking request, and the colour of the header follows its
    text: amber for "Finding location...", red for "Location
    unavailable", green for "Tracking active", grey for "Ready to
    track". *)
Theorem status_matches_controls (s : State) :
  lifecycle s = Mounted ->
  (getLocationStatusText s = "Ready to track"%string
   <-> trace (step PressStart s)
       = trace s ++ [Call requestBackgroundPermissionsAsync])
  /\ (getLocationStatusText s = "Finding location..."%string
      <-> getLocationStatusColor s = "#F59E0B"%string)
  /\ (getLocationStatusText s = "Location unavailable"%string
      <-> getLocationStatusColor s = "#EF4444"%string)
  /\ (getLocationStatusText s = "Tracking active"%string
      <-> getLocationStatusColor s = "#10B981"%string)
  /\ (getLocationStatusText s = "Ready to track"%string
      <-> getLocationStatusColor s = "#64748B"%string).
Proof.
  intros Hl.
  assert (Hne : forall e, trace s <> trace s ++ [e]).
  { intros e H. apply (f_equal length) in H. rewrite length_app in H.
    cbn in H. lia. }
  unfold getLocationStatusText, getLocationStatusColor, step, is_mounted, is_some.
  rewrite Hl.
  destruct (isLoading s), (error s), (isTracking s); cbn [andb orb negb];
    repeat apply conj; intros H; try discriminate H;
    try reflexivity; try (by apply Hne in H).
Qed.

Lemma status_matches_controls_witness :
  lifecycle ready = Mounted
  /\ getLocationStatusText ready = "Ready to track"%string
  /\ trace (step PressStart ready)
     = trace ready ++ [Call requestBackgroundPermissionsAsync].
Proof.
  split; [reflexivity|]. split; [reflexivity|].
  apply (status_matches_controls ready eq_refl). reflexivity.
Defined.


(** ** Starting, in full *)

Lemma settle_pending (p : nat) (k : Cont) (r : Result (answer k)) (s : State) :
  pending s !! p = Some k ->
  step (Settle p k r) s = resume k r (set_pending (delete p (pending s)) s).
Proof. intros H. unfold step. by rewrite decide_True. Qed.

Lemma startLocationTracking_spec (s : State) :
  isTracking (startLocationTracking s) = isTracking s
  /\ startTime (startLocationTracking s) = startTime s
  /\ error (startLocationTracking s) = None
  /\ now (startLocationTracking s) = now s
  /\ watches (startLocationTracking s) = watches s
  /\ locationSubscription (startLocationTracking s) = locationSubscription s
  /\ trace (startLocationTracking s)
     = trace s ++ [Call requestBackgroundPermissionsAsync]
  /\ nextId (startLocationTracking s) = S (nextId s)
  /\ pending (startLocationTracking s)
     = <[nextId s := StartTracking_background]> (pending s).
Proof. repeat apply conj; reflexivity. Qed.

Lemma startLocationTracking_after_background_spec
  (status : PermissionStatus) (t : State) :
  let t1 := startLocationTracking_after_background (Fulfilled status) t in
  isTracking t1 = true
  /\ startTime t1 = Some (now t)
  /\ error t1 = error t
  /\ watches t1 = watches t
  /\ locationSubscription t1 = locationSubscription t
  /\ trace t1 = trace t ++ background_notice status ++ [Call watchPositionAsync]
  /\ nextId t1 = S (nextId t)
  /\ pending t1 = <[nextId t := StartTracking_watch]> (pending t).
Proof.
  destruct status; cbv zeta; repeat apply conj; try reflexivity;
    unfold_handlers; simpl_state; by rewrite <- ?app_assoc.
Qed.

Lemma startLocationTracking_after_watch_spec (t : State) :
  let t1 := startLocationTracking_after_watch (Fulfilled ()) t in
  isTracking t1 = isTracking t
  /\ error t1 = error t
  /\ startTime t1 = startTime t
  /\ watches t1 = watches t ∪ {[ nextId t ]}
  /\ locationSubscription t1 = Some (nextId t)
  /\ trace t1 = trace t ++ [AlertShown "Tracking Started"].
Proof. repeat apply conj; reflexivity. Qed.

Lemma startLocationTracking_catch_spec (t : State) :
  isTracking (startLocationTracking_catch t) = false
  /\ error (startLocationTracking_catch t) = Some TRACKING_ERROR
  /\ startTime (startLocationTracking_catch t) = startTime t
  /\ watches (startLocationTracking_catch t) = watches t
  /\ locationSubscription (startLocationTracking_catch t) = locationSubscription t
  /\ trace (startLocationTracking_catch t) = trace t.
Proof. repeat apply conj; reflexivity. Qed.

(** X6. A refused background permission does not stop the start: for
    every answer, tracking is switched on, the start time is the clock's,
    a watch is requested, and once it opens the new subscription is live
    and stored; the only difference is the "Background Location" notice
    shown when the answer is not [granted]. *)
Theorem startLocationTracking_background_advisory
  (s : State) (status : PermissionStatus) :
  let p := nextId s in
  let s1 := step (Settle p StartTracking_background (Fulfilled status))
                 (startLocationTracking s) in
  let s2 := step (Settle (S p) StartTracking_watch (Fulfilled ())) s1 in
  (isTracking s1 = true /\ startTime s1 = Some (now s) /\ error s1 = None
   /\ trace s1 = trace s ++ [Call requestBackgroundPermissionsAsync]
                 ++ background_notice status ++ [Call watchPositionAsync])
  /\ (isTracking s2 = true /\ error s2 = None
      /\ locationSubscription s2 = Some (S (S p))
      /\ watches s2 = watches s ∪ {[ S (S p) ]}
      /\ trace s2 = trace s1 ++ [AlertShown "Tracking Started"]).
Proof.
  intros p s1 s2. subst p.
  destruct (startLocationTracking_spec s)
    as (_ & _ & He0 & Hn0 & Hw0 & _ & Ht0 & Hi0 & Hp0).
  assert (E1 : s1 = startLocationTracking_after_background (Fulfilled status)
                      (set_pending (delete (nextId s) (pending (startLocationTracking s)))
                                   (startLocationTracking s))).
  { apply (settle_pending (nextId s) StartTracking_background). rewrite Hp0.
    apply lookup_insert_eq. }
  clearbody s1.
  set (t0 := set_pending _ _) in E1.
  assert (F0 : error t0 = None /\ now t0 = now s /\ watches t0 = watches s
               /\ trace t0 = trace s ++ [Call requestBackgroundPermissionsAsync]
               /\ nextId t0 = S (nextId s)).
  { subst t0. by rewrite <- He0, <- Hn0, <- Hw0, <- Ht0, <- Hi0. }
  clearbody t0. destruct F0 as (He & Hn & Hw & Ht & Hi).
  destruct (startLocationTracking_after_background_spec status t0)
    as (Ha1 & Ha2 & Ha3 & Ha4 & _ & Ha6 & Ha7 & Ha8).
  cbv zeta in *. rewrite <- E1 in *.
  rewrite Hn in Ha2. rewrite He in Ha3. rewrite Hw in Ha4.
  rewrite Ht, <- app_assoc in Ha6. rewrite Hi in Ha7, Ha8.
  split; [auto|].
  assert (E2 : s2 = startLocationTracking_after_watch (Fulfilled ())
                      (set_pending (delete (S (nextId s)) (pending s1)) s1)).
  { apply (settle_pending (S (nextId s)) StartTracking_watch). rewrite Ha8.
    apply lookup_insert_eq. }
  clearbody s2. rewrite E2.
  destruct (startLocationTracking_after_watch_spec
              (set_pending (delete (S (nextId s)) (pending s1)) s1))
    as (Hb1 & Hb2 & _ & Hb4 & Hb5 & Hb6).
  cbv zeta in *. rewrite Hb1, Hb2, Hb4, Hb5, Hb6.
  change (isTracking (set_pending (delete (S (nextId s)) (pending s1)) s1)) with (isTracking s1).
  change (error (set_pending (delete (S (nextId s)) (pending s1)) s1)) with (error s1).
  change (nextId (set_pending (delete (S (nextId s)) (pending s1)) s1)) with (nextId s1).
  change (watches (set_pending (delete (S (nextId s)) (pending s1)) s1)) with (watches s1).
  change (trace (set_pending (delete (S (nextId s)) (pending s1)) s1)) with (trace s1).
  rewrite Ha1, Ha3, Ha4, Ha7. auto.
Qed.

(** X7. When the start fails, tracking is switched off and
    [TRACKING_ERROR] is set.  A failing background request issues no
    watch request and leaves the start time alone; a watch that fails to
    open stores no subscription and opens none, but the start time set
    before the request stays. *)
Theorem startLocationTracking_failure
  (s : State) (status : PermissionStatus) :
  let p := nextId s in
  let s0 := step (Settle p StartTracking_background Rejected)
                 (startLocationTracking s) in
  let s1 := step (Settle p StartTracking_background (Fulfilled status))
                 (startLocationTracking s) in
  let s2 := step (Settle (S p) StartTracking_watch Rejected) s1 in
  (isTracking s0 = false /\ error s0 = Some TRACKING_ERROR
   /\ startTime s0 = startTime s
   /\ trace s0 = trace s ++ [Call requestBackgroundPermissionsAsync])
  /\ (isTracking s2 = false /\ error s2 = Some TRACKING_ERROR
      /\ locationSubscription s2 = locationSubscription s
      /\ watches s2 = watches s
      /\ startTime s2 = Some (now s)).
Proof.
  intros p s0 s1 s2. subst p.
  destruct (startLocationTracking_spec s)
    as (_ & Hs0 & _ & Hn0 & Hw0 & Hl0 & Ht0 & Hi0 & Hp0).
  assert (Hk : pending (startLocationTracking s) !! nextId s
               = Some StartTracking_background).
  { rewrite Hp0. apply lookup_insert_eq. }
  assert (E0 : s0 = startLocationTracking_catch
                      (set_pending (delete (nextId s)
                                      (pending (startLocationTracking s)))
                                   (startLocationTracking s))).
  { apply (settle_pending (nextId s) StartTracking_background Rejected), Hk. }
  assert (E1 : s1 = startLocationTracking_after_background (Fulfilled status)
                      (set_pending (delete (nextId s)
                                      (pending (startLocationTracking s)))
                                   (startLocationTracking s))).
  { apply (settle_pending (nextId s) StartTracking_background), Hk. }
  clearbody s0 s1.
  set (t0 := set_pending _ _) in E0, E1.
  assert (F0 : startTime t0 = startTime s /\ now t0 = now s
               /\ watches t0 = watches s
               /\ locationSubscription t0 = locationSubscription s
               /\ trace t0 = trace s ++ [Call requestBackgroundPermissionsAsync]
               /\ nextId t0 = S (nextId s)).
  { subst t0. by rewrite <- Hs0, <- Hn0, <- Hw0, <- Hl0, <- Ht0, <- Hi0. }
  clearbody t0. destruct F0 as (Hs & Hn & Hw & Hl & Ht & Hi).
  split.
  - destruct (startLocationTracking_catch_spec t0) as (Hc1 & Hc2 & Hc3 & _ & _ & Hc6).
    rewrite <- E0 in *. rewrite Hc1, Hc2, Hc3, Hc6, Hs, Ht. auto.
  - destruct (startLocationTracking_after_background_spec status t0)
      as (_ & Ha2 & _ & Ha4 & Ha5 & _ & Ha7 & Ha8).
    cbv zeta in *. rewrite <- E1 in *.
    rewrite Hn in Ha2. rewrite Hw in Ha4. rewrite Hl in Ha5.
    rewrite Hi in Ha7, Ha8.
    assert (E2 : s2 = startLocationTracking_catch
                        (set_pending (delete (S (nextId s)) (pending s1)) s1)).
    { apply (settle_pending (S (nextId s)) StartTracking_watch Rejected).
      rewrite Ha8. apply lookup_insert_eq. }
    clearbody s2. rewrite E2.
    destruct (startLocationTracking_catch_spec
                (set_pending (delete (S (nextId s)) (pending s1)) s1))
      as (Hc1 & Hc2 & Hc3 & Hc4 & Hc5 & _).
    rewrite Hc1, Hc2, Hc3, Hc4, Hc5.
    change (startTime (set_pending (delete (S (nextId s)) (pending s1)) s1))
      with (startTime s1).
    change (watches (set_pending (delete (S (nextId s)) (pending s1)) s1))
      with (watches s1).
    change (locationSubscription
              (set_pending (delete (S (nextId s)) (pending s1)) s1))
      with (locationSubscription s1).
    rewrite Ha2, Ha4, Ha5. auto.
Qed.

(** ** A geocode answer and a newer reading *)

Lemma reverseGeocode_pending (lat lon : float) (s : State) :
  pending (reverseGeocode lat lon s) = pending s.
Proof. unfold reverseGeocode, seq, fresh. by destruct (reverseGeocodeTimeout s). Qed.

Lemma watch_callback_spec (c : Coords) (s : State) :
  location (watch_callback c s)
  = Some (reading c (now s) (address_of (location s)))
  /\ pending (watch_callback c s) = pending s
  /\ error (watch_callback c s) = error s.
Proof.
  unfold watch_callback, seq. split; [|split].
  - rewrite reverseGeocode_location. unfold reading, address_of. cbn.
    by destruct (location s).
  - by rewrite reverseGeocode_pending.
  - by rewrite reverseGeocode_error.
Qed.

(** X8. A geocode answer is attached to the reading stored when it
    arrives, whatever coordinates the call was made for: when a watch
    update comes between the call and its answer, the answer's address
    lands on the new reading. *)
Theorem geocode_answer_lands_on_latest_reading
  (s : State) (p h : nat) (c : Coords)
  (a : LocationGeocodedAddress) (l : list LocationGeocodedAddress) :
  pending s !! p = Some Geocode_addresses -> h ∈ watches s ->
  location (run [WatchEmit h c;
                 Settle p Geocode_addresses (Fulfilled (a :: l))] s)
  = Some (reading c (now s) (Some (formatAddress a))).
Proof.
  intros Hp Hh. rewrite !run_cons.
  assert (E : step (WatchEmit h c) s = watch_callback c s).
  { unfold step. by rewrite decide_True. }
  rewrite E. destruct (watch_callback_spec c s) as (Hl & Hpe & _).
  set (s1 := watch_callback c s) in *. clearbody s1.
  unfold run, foldl.
  rewrite settle_pending by (by rewrite Hpe).
  cbn [resume]. unfold timer_callback_after, setLocation.
  cbn [location set_pending]. by rewrite Hl.
Qed.

Lemma geocode_answer_lands_on_latest_reading_witness :
  pending tracking_geocoding !! 10%nat = Some Geocode_addresses
  /\ location (run [WatchEmit 8 fix1;
                    Settle 10 Geocode_addresses (Fulfilled [main_st])]
                   tracking_geocoding)
     = Some (mkLocationData 40.5%float (-73.25)%float 2000 (Some 5%float)
                            (Some "Main St, Springfield"%string)).
Proof.
  assert (Hp : pending tracking_geocoding !! 10%nat = Some Geocode_addresses)
    by reflexivity.
  assert (Hh : 8%nat ∈ watches tracking_geocoding)
    by (apply (bool_decide_unpack _); vm_compute; exact I).
  split; [exact Hp|].
  exact (geocode_answer_lands_on_latest_reading tracking_geocoding 10 8 fix1
           main_st [] Hp Hh).
Defined.

(** ** Completing a delivery *)

Lemma stopLocationTracking_location (s : State) :
  location (stopLocationTracking s) = location s.
Proof.
  unfold stopLocationTracking, seq.
  destruct (locationSubscription s); cbn;
    destruct (reverseGeocodeTimeout s); cbn; done.
Qed.

(** X9. Complete Delivery does nothing without a position; with one it
    only opens the confirmation: tracking, the watch and the timer are
    untouched, and Cancel leaves the screen as it was.  Confirm stops
    tracking: the stored subscription is removed, the timeout cleared,
    both refs emptied, the position kept, and "Success" is shown. *)
Theorem completeDelivery_stops_on_confirm (s : State) (l : LocationData) :
  lifecycle s = Mounted -> confirmDialog s = false ->
  (location s = None -> step PressComplete s = s)
  /\ (location s = Some l ->
      let s1 := step PressComplete s in
      let s2 := step ConfirmDelivery s1 in
      s1 = set_confirmDialog true (emit (AlertShown "Complete Delivery") s)
      /\ step CancelDelivery s1 = emit (AlertShown "Complete Delivery") s
      /\ isTracking s2 = false
      /\ locationSubscription s2 = None
      /\ reverseGeocodeTimeout s2 = None
      /\ location s2 = Some l
      /\ watches s2 = match locationSubscription s with
                      | Some h => watches s ∖ {[ h ]}
                      | None => watches s
                      end
      /\ trace s2 = trace s ++ [AlertShown "Complete Delivery"]
                    ++ stop_effects s ++ [AlertShown "Success"]).
Proof.
  intros Hm Hc. unfold step at 1 2, is_mounted, is_some. rewrite Hm.
  split; [by intros ->|]. intros Hl. rewrite Hl. cbn [andb].
  unfold completeDelivery. rewrite Hl. unfold seq, alert.
  set (s1 := set_confirmDialog true (emit (AlertShown "Complete Delivery") s)).
  split; [reflexivity|]. split.
  { subst s1. unfold step. destruct s; cbn in *. by subst. }
  assert (E2 : step ConfirmDelivery s1
               = emit (AlertShown "Success")
                   (stopLocationTracking (set_confirmDialog false s1)))
    by reflexivity.
  rewrite E2. clear E2.
  set (t := set_confirmDialog false s1).
  assert (Ft : locationSubscription t = locationSubscription s
               /\ reverseGeocodeTimeout t = reverseGeocodeTimeout s
               /\ location t = location s /\ watches t = watches s
               /\ trace t = trace s ++ [AlertShown "Complete Delivery"])
    by (repeat apply conj; reflexivity).
  clearbody t. destruct Ft as (F1 & F2 & F3 & F4 & F5).
  destruct (stopLocationTracking_refs t) as (R1 & R2 & R3).
  pose proof (stopLocationTracking_location t) as R4.
  pose proof (stopLocationTracking_watches t) as R5.
  pose proof (stopLocationTracking_trace t) as R6.
  unfold stop_effects in *. rewrite F1, F2 in R6. rewrite F1, F4 in R5.
  rewrite F3, Hl in R4. rewrite F5 in R6.
  set (u := stopLocationTracking t) in *. clearbody u.
  cbn [emit isTracking locationSubscription reverseGeocodeTimeout location
       watches trace].
  rewrite R1, R2, R3, R4, R5, R6, <- !app_assoc.
  repeat apply conj; reflexivity.
Qed.

Lemma completeDelivery_stops_on_confirm_witness :
  lifecycle tracking = Mounted
  /\ isTracking (step ConfirmDelivery (step PressComplete tracking)) = false
  /\ watches (step ConfirmDelivery (step PressComplete tracking))
     = watches tracking ∖ {[ 8%nat ]}.
Proof.
  split; [reflexivity|].
  pose proof (completeDelivery_stops_on_confirm tracking
    (with_address (mkLocationData 40.5%float (-73.25)%float 0
                     (Some 5%float) None) "Main St, Springfield")
    eq_refl eq_refl) as [_ H].
  specialize (H eq_refl). cbv zeta in H.
  destruct H as (_ & _ & H1 & _ & _ & _ & H2 & _).
  split; [exact H1|exact H2].
Defined.

(** ** Unmounting, when nothing is suspended *)

(** X10. When the screen unmounts with no promise pending, no dialog
    open, and its one live watch and one pending timeout held by the
    refs, the cleanup leaves no watch and no timeout, both refs empty,
    and afterwards no event changes anything but the clock. *)
Theorem unmount_quiet_releases_everything (s : State) (e : Event) :
  lifecycle s = Mounted -> pending s = ∅ -> confirmDialog s = false ->
  timers_wf s -> watches_wf s ->
  watches (step Unmount s) = ∅
  /\ timers (step Unmount s) = []
  /\ locationSubscription (step Unmount s) = None
  /\ reverseGeocodeTimeout (step Unmount s) = None
  /\ (step e (step Unmount s) = step Unmount s
      \/ exists d, e = Elapse d
                   /\ step e (step Unmount s)
                      = set_now (now (step Unmount s) + d) (step Unmount s)).
Proof.
  intros Hl Hp Hc Ht Hw.
  destruct (unmount_quiescent s Hl Hp Hc Ht Hw) as (Hu & Hs & Hr & Hi).
  pose proof Hi as (H1 & H2 & _).
  repeat apply conj; try assumption.
  by apply unmounted_idle_inert.
Qed.

Lemma unmount_quiet_releases_everything_witness :
  lifecycle tracking = Mounted
  /\ elements (watches tracking) = [8%nat]
  /\ watches (step Unmount tracking) = ∅
  /\ step (WatchEmit 8 fix2) (step Unmount tracking) = step Unmount tracking.
Proof.
  assert (Hw : watches_wf tracking).
  { intros h Hh. assert (E : watches tracking = {[ 8%nat ]}) by reflexivity.
    rewrite E in Hh. apply elem_of_singleton in Hh. by subst. }
  assert (Ht : timers_wf tracking) by (left; reflexivity).
  pose proof (unmount_quiet_releases_everything tracking (WatchEmit 8 fix2)
                eq_refl eq_refl eq_refl Ht Hw) as (H1 & _ & _ & _ & H2).
  split; [reflexivity|]. split; [reflexivity|]. split; [exact H1|].
  destruct H2 as [H2|(d & Hd & _)]; [exact H2|discriminate Hd].
Defined.

(** * The Add Task form *)

Lemma number_toString_inj (a b : Z) :
  number_toString a = number_toString b -> a = b.
Proof.
  assert (Hnil : forall z, Z.to_int z <> Decimal.Pos Decimal.Nil
                           /\ Z.to_int z <> Decimal.Neg Decimal.Nil).
  { intros z. split; intros H;
      (assert (z = 0) by (by rewrite <- (DecimalZ.of_to z), H));
      subst z; vm_compute in H; discriminate H. }
  unfold number_toString. intros H.
  apply (f_equal DecimalString.NilZero.int_of_string) in H.
  rewrite !DecimalString.NilZero.isi in H by apply Hnil.
  injection H as H. by apply DecimalZ.to_int_inj.
Qed.

Section TaskFormLists.

Lemma filter_absent_id (i : string) (l : list TaskForm.TaskItem) :
  i ∉ map TaskForm.id l -> filter (fun item => TaskForm.id item ≠ i) l = l.
Proof.
  induction l as [|x l IH]; intros Hi; [done|].
  cbn in Hi. apply not_elem_of_cons in Hi as [Hx Hl].
  rewrite filter_cons_True by congruence. by rewrite IH.
Qed.

Lemma filter_other_id_length (i : string) (l : list TaskForm.TaskItem) :
  NoDup (map TaskForm.id l) ->
  (length l - 1 <= length (filter (fun item => TaskForm.id item ≠ i) l))%nat.
Proof.
  induction l as [|x l IH]; intros Hnd; [done|].
  cbn in Hnd. apply NoDup_cons in Hnd as [Hx Hnd].
  destruct (decide (TaskForm.id x = i)) as [<-|Hne].
  - rewrite filter_cons_False by (intros H; by apply H).
    rewrite filter_absent_id by done. cbn. lia.
  - rewrite filter_cons_True by done. cbn. specialize (IH Hnd). lia.
Qed.

(** X11. With distinct ids, [removeItem] never empties the list: a
    lone item stays, and from several items exactly the ones with
    another id stay, which drops at most one. *)
Theorem removeItem_keeps_an_item (i : string) (s : TaskForm.State) :
  NoDup (map TaskForm.id (TaskForm.items s)) -> TaskForm.items s <> [] ->
  TaskForm.items (TaskForm.removeItem i s) <> []
  /\ ((length (TaskForm.items s) <= 1)%nat ->
      TaskForm.removeItem i s = s)
  /\ ((1 < length (TaskForm.items s))%nat ->
      forall x, x ∈ TaskForm.items (TaskForm.removeItem i s)
                <-> x ∈ TaskForm.items s /\ TaskForm.id x <> i)
  /\ (length (TaskForm.items s) - 1
      <= length (TaskForm.items (TaskForm.removeItem i s)))%nat.
Proof.
  intros Hnd Hne. unfold TaskForm.removeItem.
  pose proof (filter_other_id_length i _ Hnd) as Hlen.
  destruct (1 <? length (TaskForm.items s))%nat eqn:E.
  - apply Nat.ltb_lt in E. cbn [TaskForm.items TaskForm.setItems].
    split; [intros H; rewrite H in Hlen; cbn in Hlen; lia|].
    split; [lia|]. split; [|exact Hlen].
    intros _ x. by rewrite list_elem_of_filter, (comm and).
  - apply Nat.ltb_ge in E. split; [done|]. split; [done|].
    split; [lia|lia].
Qed.

(** X12. [addItem] appends one blank item whose id is the clock's
    decimal string; ids made at different clock values differ; and
    when that id is new, removing the item just added gives back the
    list as it was. *)
Theorem addItem_then_removeItem (s : TaskForm.State) :
  TaskForm.items s <> [] ->
  number_toString (TaskForm.now s) ∉ map TaskForm.id (TaskForm.items s) ->
  TaskForm.items (TaskForm.addItem s)
  = TaskForm.items s
    ++ [TaskForm.mkTaskItem (number_toString (TaskForm.now s)) "" ""]
  /\ (forall t, number_toString t = number_toString (TaskForm.now s) ->
                t = TaskForm.now s)
  /\ TaskForm.removeItem (number_toString (TaskForm.now s))
                         (TaskForm.addItem s) = s.
Proof.
  intros Hne Hfresh. split; [reflexivity|].
  split; [intros t; apply number_toString_inj|].
  unfold TaskForm.removeItem, TaskForm.addItem.
  cbn [TaskForm.items TaskForm.setItems]. rewrite length_app. cbn [length].
  destruct (TaskForm.items s) as [|x l] eqn:E; [done|].
  replace (1 <? length (x :: l) + 1)%nat with true
    by (symmetry; apply Nat.ltb_lt; cbn; lia).
  rewrite filter_app, filter_absent_id by done.
  rewrite filter_cons_False by (intros H; by apply H). rewrite filter_nil.
  rewrite app_nil_r. destruct s; cbn in *. by subst.
Qed.
End TaskFormLists.

(** X13. [updateItem] keeps the ids and their order, changes nothing
    when no item has the id, sets the field of the items that have it
    and leaves their other field and the other items alone; the last
    value typed into a field wins, and typing into the name and into
    the quantity of an item commute. *)
Theorem updateItem_edits_one_field
  (i : string) (field : TaskForm.Field) (v w : string) (s : TaskForm.State) :
  map TaskForm.id (TaskForm.items (TaskForm.updateItem i field v s))
  = map TaskForm.id (TaskForm.items s)
  /\ (i ∉ map TaskForm.id (TaskForm.items s) ->
      TaskForm.updateItem i field v s = s)
  /\ (forall n x, TaskForm.items s !! n = Some x ->
        TaskForm.items (TaskForm.updateItem i field v s) !! n
        = Some (if decide (TaskForm.id x = i)
                then TaskForm.with_field field v x else x))
  /\ (forall x,
        TaskForm.name (TaskForm.with_field TaskForm.field_quantity v x)
        = TaskForm.name x
        /\ TaskForm.quantity (TaskForm.with_field TaskForm.field_quantity v x) = v
        /\ TaskForm.quantity (TaskForm.with_field TaskForm.field_name v x)
           = TaskForm.quantity x
        /\ TaskForm.name (TaskForm.with_field TaskForm.field_name v x) = v)
  /\ TaskForm.updateItem i field v (TaskForm.updateItem i field w s)
     = TaskForm.updateItem i field v s
  /\ TaskForm.updateItem i TaskForm.field_name v
       (TaskForm.updateItem i TaskForm.field_quantity w s)
     = TaskForm.updateItem i TaskForm.field_quantity w
         (TaskForm.updateItem i TaskForm.field_name v s).
Proof.
  unfold TaskForm.updateItem. cbn [TaskForm.items TaskForm.setItems].
  repeat apply conj.
  - rewrite map_map. apply map_ext. intros x. case_decide; [|done].
    by destruct field.
  - intros Hi.
    assert (E : map (fun item => if decide (TaskForm.id item = i)
                                 then TaskForm.with_field field v item
                                 else item) (TaskForm.items s)
                = TaskForm.items s).
    { rewrite <- (map_id (TaskForm.items s)) at 2. apply map_ext_in.
      intros x Hx. case_decide as Hid; [|done]. exfalso. apply Hi.
      rewrite <- Hid. apply list_elem_of_In, in_map. exact Hx. }
    rewrite E. by destruct s.
  - intros n x Hn.
    change (map ?f ?l) with (f <$> l). by rewrite list_lookup_fmap, Hn.
  - intros x. repeat apply conj; reflexivity.
  - unfold TaskForm.setItems; cbn. f_equal. rewrite map_map. apply map_ext.
    intros x. destruct (decide (TaskForm.id x = i)) as [Hid|Hid].
    + rewrite decide_True by (destruct field; exact Hid). by destruct field.
    + by rewrite decide_False.
  - unfold TaskForm.setItems; cbn. f_equal. rewrite !map_map. apply map_ext.
    intros x. destruct (decide (TaskForm.id x = i)) as [Hid|Hid].
    + by rewrite !decide_True by exact Hid.
    + by rewrite !decide_False by exact Hid.
Qed.

Section TaskFormSave.
Variable trim : string -> string.

Lemma valid_spec (item : TaskForm.TaskItem) :
  TaskForm.valid trim item = true
  <-> trim (TaskForm.name item) <> ""%string
      /\ trim (TaskForm.quantity item) <> ""%string.
Proof.
  unfold TaskForm.valid, TaskForm.blank.
  rewrite andb_true_iff, !negb_true_iff, !bool_decide_eq_false. done.
Qed.

Lemma saveTask_accepted (s : TaskForm.State) :
  TaskForm.accepted trim s ->
  TaskForm.saveTask trim s
  = TaskForm.set_pending
      (<[TaskForm.nextId s :=
           TaskForm.mkClosure (TaskForm.shopName s) (TaskForm.shopLocation s)
             (filter (fun item => TaskForm.valid trim item = true) (TaskForm.items s))
             (TaskForm.completedTasks s)]> (TaskForm.pending s))
      (TaskForm.set_nextId (S (TaskForm.nextId s))
         (TaskForm.emit TaskForm.Call_getCurrentPositionAsync s)).
Proof.
  intros (Hn & Hl & x & Hx & Hxn & Hxq). unfold TaskForm.saveTask.
  unfold TaskForm.blank at 1 2. rewrite !bool_decide_eq_false_2 by done.
  cbn [orb].
  destruct (filter (fun item => TaskForm.valid trim item = true) (TaskForm.items s))
    as [|y l] eqn:E; [|done].
  exfalso. eapply (filter_nil_not_elem_of _ _ x); [exact E| |exact Hx].
  by apply valid_spec.
Qed.

Lemma saveTask_refused (s : TaskForm.State) :
  ~ TaskForm.accepted trim s ->
  exists message,
    TaskForm.saveTask trim s = TaskForm.emit (TaskForm.AlertShown "Error" message) s.
Proof.
  intros Hna. unfold TaskForm.saveTask.
  destruct (TaskForm.blank trim (TaskForm.shopName s)) eqn:E1; [by eexists|].
  destruct (TaskForm.blank trim (TaskForm.shopLocation s)) eqn:E2; [by eexists|].
  cbn [orb].
  destruct (filter (fun item => TaskForm.valid trim item = true) (TaskForm.items s))
    as [|y l] eqn:E; [by eexists|].
  exfalso. apply Hna. unfold TaskForm.blank in E1, E2.
  apply bool_decide_eq_false in E1, E2. split; [done|]. split; [done|].
  assert (Hy : y ∈ filter (fun item => TaskForm.valid trim item = true) (TaskForm.items s))
    by (rewrite E; apply list_elem_of_here).
  apply list_elem_of_filter in Hy as [Hv Hy]. apply valid_spec in Hv.
  exists y. tauto.
Qed.

Lemma saveTask_after_ok (k : TaskForm.Closure) (c : Coords) (s : TaskForm.State) :
  let s' := TaskForm.saveTask_after trim k (Fulfilled c) s in
  TaskForm.completedTasks s'
  = TaskForm.closure_completedTasks k
    ++ [TaskForm.mkCompletedTask (number_toString (TaskForm.now s))
          (trim (TaskForm.closure_shopName k))
          (trim (TaskForm.closure_shopLocation k))
          (TaskForm.closure_validItems k) (TaskForm.now s)
          (reading c (TaskForm.now s) None)]
  /\ TaskForm.shopName s' = ""%string
  /\ TaskForm.shopLocation s' = ""%string
  /\ TaskForm.items s' = [TaskForm.blank_item]
  /\ TaskForm.showAddTaskModal s' = TaskForm.showAddTaskModal s
  /\ TaskForm.trace s'
     = TaskForm.trace s
       ++ [TaskForm.AlertShown "Success"
             "Task saved successfully and added to completed section!"].
Proof. repeat apply conj; reflexivity. Qed.

Lemma press_save (s : TaskForm.State) :
  TaskForm.showAddTaskModal s = true ->
  TaskForm.step trim TaskForm.PressSave s = TaskForm.saveTask trim s.
Proof. intros H. unfold TaskForm.step. by rewrite H. Qed.

Lemma settle_save (p : nat) (k : TaskForm.Closure) (r : Result Coords)
  (s : TaskForm.State) :
  TaskForm.pending s !! p = Some k ->
  TaskForm.step trim (TaskForm.Settle p r) s
  = TaskForm.saveTask_after trim k r
      (TaskForm.set_pending (delete p (TaskForm.pending s)) s).
Proof. intros H. unfold TaskForm.step. by rewrite H. Qed.

Lemma form_run_cons (e : TaskForm.Event) (es : list TaskForm.Event)
  (s : TaskForm.State) :
  TaskForm.run trim (e :: es) s
  = TaskForm.run trim es (TaskForm.step trim e s).
Proof. reflexivity. Qed.

(** X14. [saveTask] refuses, with an "Error" alert and nothing else,
    exactly when the trimmed shop name or shop location is empty or
    no item has both a name and a quantity left after trimming;
    otherwise it asks for one position fix and keeps, for the answer,
    the form as it is: names, the valid items, the tasks completed so
    far. *)
Theorem saveTask_validation (s : TaskForm.State) :
  (~ TaskForm.accepted trim s ->
   exists message,
     TaskForm.saveTask trim s
     = TaskForm.emit (TaskForm.AlertShown "Error" message) s)
  /\ (TaskForm.accepted trim s ->
      TaskForm.trace (TaskForm.saveTask trim s)
      = TaskForm.trace s ++ [TaskForm.Call_getCurrentPositionAsync]
      /\ TaskForm.pending (TaskForm.saveTask trim s) !! TaskForm.nextId s
         = Some (TaskForm.mkClosure (TaskForm.shopName s)
                   (TaskForm.shopLocation s)
                   (filter (fun item => TaskForm.valid trim item = true)
                           (TaskForm.items s))
                   (TaskForm.completedTasks s))
      /\ TaskForm.completedTasks (TaskForm.saveTask trim s)
         = TaskForm.completedTasks s
      /\ TaskForm.items (TaskForm.saveTask trim s) = TaskForm.items s).
Proof.
  split; [apply saveTask_refused|]. intros Ha.
  rewrite (saveTask_accepted s Ha). cbn.
  repeat apply conj; try reflexivity. apply lookup_insert_eq.
Qed.

(** X15. A save that is accepted and gets its fix appends exactly one
    task to the completed ones: its names are the trimmed names of the
    form, its items are the form's valid items, in order, none of them
    with a blank name or quantity, and there is at least one; the form
    is reset to one blank item and the modal stays open.  When the fix
    fails nothing is saved and the form is kept. *)
Theorem saveTask_saves_valid_items (s : TaskForm.State) (c : Coords) :
  TaskForm.showAddTaskModal s = true -> TaskForm.accepted trim s ->
  let saved :=
    TaskForm.run trim [TaskForm.PressSave;
                       TaskForm.Settle (TaskForm.nextId s) (Fulfilled c)] s in
  let failed :=
    TaskForm.run trim [TaskForm.PressSave;
                       TaskForm.Settle (TaskForm.nextId s) Rejected] s in
  let kept := filter (fun item => TaskForm.valid trim item = true)
                     (TaskForm.items s) in
  TaskForm.completedTasks saved
  = TaskForm.completedTasks s
    ++ [TaskForm.mkCompletedTask (number_toString (TaskForm.now s))
          (trim (TaskForm.shopName s)) (trim (TaskForm.shopLocation s))
          kept (TaskForm.now s) (reading c (TaskForm.now s) None)]
  /\ kept <> []
  /\ (forall item, item ∈ kept <->
        item ∈ TaskForm.items s
        /\ trim (TaskForm.name item) <> ""%string
        /\ trim (TaskForm.quantity item) <> ""%string)
  /\ (TaskForm.shopName saved = ""%string
      /\ TaskForm.shopLocation saved = ""%string
      /\ TaskForm.items saved = [TaskForm.blank_item]
      /\ TaskForm.showAddTaskModal saved = true)
  /\ (TaskForm.completedTasks failed = TaskForm.completedTasks s
      /\ TaskForm.shopName failed = TaskForm.shopName s
      /\ TaskForm.shopLocation failed = TaskForm.shopLocation s
      /\ TaskForm.items failed = TaskForm.items s
      /\ TaskForm.trace failed
         = TaskForm.trace s
           ++ [TaskForm.Call_getCurrentPositionAsync;
               TaskForm.AlertShown "Error"
                 "Failed to get GPS location. Please try again."]).
Proof.
  intros Hm Ha saved failed kept. subst saved failed.
  rewrite !form_run_cons, (press_save s Hm).
  rewrite (saveTask_accepted s Ha). fold kept.
  rewrite !(settle_save (TaskForm.nextId s)
              (TaskForm.mkClosure (TaskForm.shopName s)
                 (TaskForm.shopLocation s) kept (TaskForm.completedTasks s)))
    by apply lookup_insert_eq.
  unfold TaskForm.run, foldl.
  repeat apply conj; try reflexivity.
  - destruct Ha as (_ & _ & x & Hx & Hn & Hq). intros E.
    eapply (filter_nil_not_elem_of _ _ x); [exact E| |exact Hx].
    by apply valid_spec.
  - intros item. subst kept. rewrite list_elem_of_filter, valid_spec. tauto.
  - cbn. exact Hm.
  - cbn. by rewrite <- app_assoc.
Qed.

(** X16. Save pressed twice before the first fix arrives saves one
    task, not two: the second answer writes the list of the render in
    which Save was pressed, with its own task appended, over the list
    the first answer wrote; both answers show "Success". *)
Theorem saveTask_twice_keeps_one (s : TaskForm.State) (c1 c2 : Coords) :
  TaskForm.showAddTaskModal s = true -> TaskForm.accepted trim s ->
  let p := TaskForm.nextId s in
  let s' :=
    TaskForm.run trim [TaskForm.PressSave; TaskForm.PressSave;
                       TaskForm.Settle p (Fulfilled c1);
                       TaskForm.Settle (S p) (Fulfilled c2)] s in
  TaskForm.completedTasks s'
  = TaskForm.completedTasks s
    ++ [TaskForm.mkCompletedTask (number_toString (TaskForm.now s))
          (trim (TaskForm.shopName s)) (trim (TaskForm.shopLocation s))
          (filter (fun item => TaskForm.valid trim item = true)
                  (TaskForm.items s))
          (TaskForm.now s) (reading c2 (TaskForm.now s) None)]
  /\ length (TaskForm.completedTasks s')
     = S (length (TaskForm.completedTasks s))
  /\ TaskForm.trace s'
     = TaskForm.trace s
       ++ [TaskForm.Call_getCurrentPositionAsync;
           TaskForm.Call_getCurrentPositionAsync;
           TaskForm.AlertShown "Success"
             "Task saved successfully and added to completed section!";
           TaskForm.AlertShown "Success"
             "Task saved successfully and added to completed section!"].
Proof.
  intros Hm Ha p s'. subst p s'.
  rewrite !form_run_cons, (press_save s Hm).
  rewrite (saveTask_accepted s Ha).
  set (kept := filter _ (TaskForm.items s)).
  set (k := TaskForm.mkClosure _ _ kept _).
  set (s1 := TaskForm.set_pending _ _).
  assert (Ha1 : TaskForm.accepted trim s1) by exact Ha.
  rewrite (press_save s1 Hm).
  rewrite (saveTask_accepted s1 Ha1). fold kept.
  change (TaskForm.mkClosure (TaskForm.shopName s1) (TaskForm.shopLocation s1)
            kept (TaskForm.completedTasks s1)) with k.
  change (TaskForm.nextId s1) with (S (TaskForm.nextId s)).
  change (TaskForm.pending s1) with (<[TaskForm.nextId s := k]> (TaskForm.pending s)).
  set (s2 := TaskForm.set_pending _ _).
  rewrite (settle_save (TaskForm.nextId s) k)
    by (subst s2; cbn [TaskForm.pending TaskForm.set_pending];
        rewrite lookup_insert_ne by lia; apply lookup_insert_eq).
  set (s3 := TaskForm.saveTask_after _ _ _ _).
  rewrite (settle_save (S (TaskForm.nextId s)) k)
    by (subst s3 s2; cbn [TaskForm.saveTask_after TaskForm.pending
                          TaskForm.set_pending TaskForm.emit
                          TaskForm.setItems TaskForm.setShopLocation
                          TaskForm.setShopName TaskForm.setCompletedTasks];
        rewrite lookup_delete_ne by lia; apply lookup_insert_eq).
  unfold TaskForm.run, foldl.
  repeat apply conj.
  - reflexivity.
  - cbn. rewrite length_app. cbn. lia.
  - cbn. by rewrite <- !app_assoc.
Qed.
End TaskFormSave.

(** *** The form at [form_filled] *)

(** [form_filled] passes the checks of [saveTask]: the shop is named
    and placed, and the item typed has a name and a quantity. *)
Lemma form_filled_accepted : TaskForm.accepted trim_spaces form_filled.
Proof.
  split; [|split].
  - apply (bool_decide_unpack _). vm_compute. exact I.
  - apply (bool_decide_unpack _). vm_compute. exact I.
  - exists (TaskForm.mkTaskItem "1" "Rice" "13kg").
    split; [|split].
    + vm_compute. constructor.
    + apply (bool_decide_unpack _). vm_compute. exact I.
    + apply (bool_decide_unpack _). vm_compute. exact I.
Defined.

Lemma removeItem_keeps_an_item_witness :
  TaskForm.items (TaskForm.removeItem "1" form_filled)
  = [TaskForm.mkTaskItem "5000" "" ""]
  /\ TaskForm.items (TaskForm.removeItem "1" form_filled) <> [].
Proof.
  split; [vm_compute; reflexivity|].
  assert (Hd : NoDup (map TaskForm.id (TaskForm.items form_filled)))
    by (apply (bool_decide_unpack _); vm_compute; exact I).
  assert (Hn : TaskForm.items form_filled <> [])
    by (vm_compute; discriminate).
  exact (proj1 (removeItem_keeps_an_item "1" form_filled Hd Hn)).
Defined.

Lemma addItem_then_removeItem_witness :
  TaskForm.items
    (TaskForm.addItem (TaskForm.step trim_spaces (TaskForm.Elapse 1) form_filled))
  = [TaskForm.mkTaskItem "1" "Rice" "13kg";
     TaskForm.mkTaskItem "5000" "" "";
     TaskForm.mkTaskItem "5001" "" ""]
  /\ TaskForm.removeItem "5001"
       (TaskForm.addItem (TaskForm.step trim_spaces (TaskForm.Elapse 1) form_filled))
     = TaskForm.step trim_spaces (TaskForm.Elapse 1) form_filled.
Proof.
  split; [vm_compute; reflexivity|].
  set (s := TaskForm.step trim_spaces (TaskForm.Elapse 1) form_filled).
  assert (Hn : TaskForm.items s <> []) by (vm_compute; discriminate).
  assert (Hi : number_toString (TaskForm.now s)
               ∉ map TaskForm.id (TaskForm.items s))
    by (apply (bool_decide_unpack _); vm_compute; exact I).
  exact (proj2 (proj2 (addItem_then_removeItem s Hn Hi))).
Defined.

Lemma saveTask_saves_valid_items_witness :
  TaskForm.accepted trim_spaces form_filled
  /\ TaskForm.completedTasks
       (TaskForm.run trim_spaces
          [TaskForm.PressSave; TaskForm.Settle 1 (Fulfilled fix1)] form_filled)
     = [TaskForm.mkCompletedTask "5000" "Corner Shop" "5 High St"
          [TaskForm.mkTaskItem "1" "Rice" "13kg"] 5000
          (reading fix1 5000 None)].
Proof.
  split; [exact form_filled_accepted|].
  pose proof (saveTask_saves_valid_items trim_spaces form_filled fix1
                eq_refl form_filled_accepted) as (H & _).
  exact H.
Defined.

Lemma saveTask_twice_keeps_one_witness :
  TaskForm.accepted trim_spaces form_filled
  /\ length
       (TaskForm.completedTasks
          (TaskForm.run trim_spaces
             [TaskForm.PressSave; TaskForm.PressSave;
              TaskForm.Settle 1 (Fulfilled fix1);
              TaskForm.Settle 2 (Fulfilled fix2)] form_filled))
     = 1%nat.
Proof.
  split; [exact form_filled_accepted|].
  pose proof (saveTask_twice_keeps_one trim_spaces form_filled fix1 fix2
                eq_refl form_filled_accepted) as (_ & H & _).
  exact H.
Defined.

(** * The earlier screen *)

Ltac basic_unfold :=
  unfold BasicScreen.step, BasicScreen.is_mounted, is_some,
    BasicScreen.requestLocationPermission,
    BasicScreen.requestLocationPermission_after_foreground,
    BasicScreen.requestLocationPermission_after_position,
    BasicScreen.requestLocationPermission_catch,
    BasicScreen.geolocation_position_after, BasicScreen.startTracking,
    BasicScreen.watch_opening_after, BasicScreen.watch_callback,
    BasicScreen.stopTracking, BasicScreen.completeDelivery,
    BasicScreen.completeDelivery_confirm, BasicScreen.later in *.

Ltac basic_simpl :=
  cbn [BasicScreen.location BasicScreen.isTracking BasicScreen.startTime
       BasicScreen.errorMsg BasicScreen.platform BasicScreen.lifecycle
       BasicScreen.confirmDialog BasicScreen.now BasicScreen.watches
       BasicScreen.pending BasicScreen.nextId BasicScreen.trace
       BasicScreen.setLocation BasicScreen.setIsTracking
       BasicScreen.setStartTime BasicScreen.setErrorMsg
       BasicScreen.set_lifecycle BasicScreen.set_confirmDialog
       BasicScreen.set_now BasicScreen.set_watches BasicScreen.set_pending
       BasicScreen.set_nextId BasicScreen.emit BasicScreen.resume
       BasicScreen.answer andb orb negb] in *.

Ltac basic_finish s :=
  let Hplat := fresh "Hplat" in
  let Hloc := fresh "Hloc" in
  destruct (BasicScreen.platform s) as [|[|]] eqn:Hplat;
  destruct (BasicScreen.location s) eqn:Hloc;
  repeat (progress (basic_simpl; rewrite ?Hplat, ?Hloc;
                    repeat match goal with
                      | H : BasicScreen.errorMsg _ = _ |- _ => progress rewrite H
                      end)).

(** The cases of [BasicScreen.step], each a straight-line piece. *)
Ltac basic_cases e s :=
  destruct e as [| | | | | | | | |?p ?k ?r|?h ?c|?d];
  basic_unfold;
  [ destruct (BasicScreen.lifecycle s)
  | destruct (BasicScreen.lifecycle s)
  | destruct (BasicScreen.lifecycle s); destruct (BasicScreen.errorMsg s) eqn:?
  | destruct (BasicScreen.lifecycle s)
  | destruct (BasicScreen.lifecycle s), (BasicScreen.isTracking s)
  | destruct (BasicScreen.lifecycle s), (BasicScreen.isTracking s)
  | destruct (BasicScreen.lifecycle s)
  | destruct (BasicScreen.confirmDialog s)
  | idtac
  | case_decide;
    [match goal with k : BasicScreen.Cont |- _ => destruct k end;
     match goal with
     | r : Result _ |- _ =>
         cbn [BasicScreen.answer] in r; destruct r as [?a|]; try destruct a
     end|]
  | case_decide
  | case_decide ];
  basic_finish s.

Lemma basic_run_inv (P : BasicScreen.State -> Prop) :
  (forall e s, P s -> P (BasicScreen.step e s)) ->
  forall es s, P s -> P (BasicScreen.run es s).
Proof.
  intros Hstep es. induction es as [|e es IH]; intros s Hs; [done|].
  apply IH, Hstep, Hs.
Qed.

Lemma basic_run_app (es1 es2 : list BasicScreen.Event) (s : BasicScreen.State) :
  BasicScreen.run (es1 ++ es2) s = BasicScreen.run es2 (BasicScreen.run es1 s).
Proof. unfold BasicScreen.run. apply foldl_app. Qed.

(** X17. The earlier screen never clears its error message: once one
    is shown it stays, whatever happens next, a later successful fix
    included. *)
Theorem errorMsg_never_cleared (es : list BasicScreen.Event) (s : BasicScreen.State) :
  BasicScreen.errorMsg s <> None ->
  BasicScreen.errorMsg (BasicScreen.run es s) <> None.
Proof.
  revert s. apply (basic_run_inv (fun s => BasicScreen.errorMsg s <> None)).
  intros e s Hs. basic_cases e s; done.
Qed.

(** X18. The earlier screen never releases a watch: a live watch is
    live after every run, and whatever has happened in between, Stop,
    Confirm and unmount included, its next call-back still replaces the
    position. *)
Theorem watches_never_released
  (es : list BasicScreen.Event) (s : BasicScreen.State) (h : nat) (c : Coords) :
  h ∈ BasicScreen.watches s ->
  h ∈ BasicScreen.watches (BasicScreen.run es s)
  /\ BasicScreen.location
       (BasicScreen.run (es ++ [BasicScreen.WatchEmit h c]) s)
     = Some (BasicScreen.stored c (BasicScreen.run es s)).
Proof.
  intros Hh.
  assert (H : h ∈ BasicScreen.watches (BasicScreen.run es s)).
  { revert s Hh. apply (basic_run_inv (fun s => h ∈ BasicScreen.watches s)).
    intros e s Hs. basic_cases e s; try done.
    all: by apply elem_of_union_l. }
  split; [exact H|]. rewrite basic_run_app.
  unfold BasicScreen.run at 1. cbn [foldl]. unfold BasicScreen.step.
  by rewrite decide_True.
Qed.

Lemma errorMsg_never_cleared_witness :
  BasicScreen.errorMsg basic_denied = Some "Location permission denied"%string
  /\ BasicScreen.location
       (BasicScreen.run
          [BasicScreen.PressRetry;
           BasicScreen.Settle 2 BasicScreen.Permission_foreground
             (Fulfilled granted);
           BasicScreen.Settle 3 BasicScreen.Permission_position
             (Fulfilled fix1)] basic_denied)
     = Some (BasicScreen.mkLocationData 40.5%float (-73.25)%float 0
               (Some 5%float))
  /\ BasicScreen.errorMsg
       (BasicScreen.run
          [BasicScreen.PressRetry;
           BasicScreen.Settle 2 BasicScreen.Permission_foreground
             (Fulfilled granted);
           BasicScreen.Settle 3 BasicScreen.Permission_position
             (Fulfilled fix1)] basic_denied)
     <> None.
Proof.
  split; [reflexivity|]. split; [reflexivity|].
  apply (errorMsg_never_cleared
           [BasicScreen.PressRetry;
            BasicScreen.Settle 2 BasicScreen.Permission_foreground
              (Fulfilled granted);
            BasicScreen.Settle 3 BasicScreen.Permission_position
              (Fulfilled fix1)] basic_denied).
  vm_compute. discriminate.
Defined.

Lemma watches_never_released_witness :
  BasicScreen.isTracking
    (BasicScreen.run [BasicScreen.PressStop; BasicScreen.Unmount] basic_tracking)
  = false
  /\ BasicScreen.location
       (BasicScreen.run
          ([BasicScreen.PressStop; BasicScreen.Unmount]
             ++ [BasicScreen.WatchEmit 4 fix2]) basic_tracking)
     = Some (BasicScreen.mkLocationData 40.75%float (-73.5)%float 0 None).
Proof.
  split; [reflexivity|].
  assert (Hh : 4%nat ∈ BasicScreen.watches basic_tracking)
    by (apply (bool_decide_unpack _); vm_compute; exact I).
  exact (proj2 (watches_never_released
                  [BasicScreen.PressStop; BasicScreen.Unmount]
                  basic_tracking 4 fix2 Hh)).
Defined.

(** X19. On the earlier screen a Start followed by a Stop leaves the
    screen not tracking and one more watch live, in a browser and on a
    device alike, so that every such round adds a watch; and on a
    device, when the watch fails to open, the screen keeps showing
    tracking with no watch and no error message. *)
Theorem start_stop_leaves_the_watch (s : BasicScreen.State) :
  BasicScreen.lifecycle s = Mounted -> BasicScreen.isTracking s = false ->
  (BasicScreen.platform s = BasicScreen.web true ->
   let s' := BasicScreen.run [BasicScreen.PressStart; BasicScreen.PressStop] s in
   BasicScreen.isTracking s' = false
   /\ BasicScreen.watches s'
      = BasicScreen.watches s ∪ {[ BasicScreen.nextId s ]})
  /\ (BasicScreen.platform s = BasicScreen.native ->
      let s' :=
        BasicScreen.run
          [BasicScreen.PressStart;
           BasicScreen.Settle (BasicScreen.nextId s) BasicScreen.Watch_opening
             (Fulfilled ());
           BasicScreen.PressStop] s in
      BasicScreen.isTracking s' = false
      /\ BasicScreen.watches s'
         = BasicScreen.watches s ∪ {[ S (BasicScreen.nextId s) ]})
  /\ (BasicScreen.platform s = BasicScreen.native ->
      let s' :=
        BasicScreen.run
          [BasicScreen.PressStart;
           BasicScreen.Settle (BasicScreen.nextId s) BasicScreen.Watch_opening
             Rejected] s in
      BasicScreen.isTracking s' = true
      /\ BasicScreen.watches s' = BasicScreen.watches s
      /\ BasicScreen.errorMsg s' = BasicScreen.errorMsg s
      /\ BasicScreen.startTime s' = Some (BasicScreen.now s)).
Proof.
  intros Hl Ht.
  assert (E : BasicScreen.step BasicScreen.PressStart s
              = BasicScreen.startTracking s).
  { unfold BasicScreen.step, BasicScreen.is_mounted. by rewrite Hl, Ht. }
  repeat apply conj; intros Hp; cbv zeta; unfold BasicScreen.run, foldl;
    rewrite E; unfold BasicScreen.startTracking; basic_simpl; rewrite Hp;
    unfold BasicScreen.later, BasicScreen.step, BasicScreen.is_mounted;
    basic_simpl; rewrite ?Hl; basic_simpl;
    rewrite ?decide_True by apply lookup_insert_eq;
    unfold BasicScreen.watch_opening_after, BasicScreen.stopTracking;
    basic_simpl; rewrite ?Hl; basic_simpl; done.
Qed.

Lemma start_stop_leaves_the_watch_witness :
  BasicScreen.lifecycle basic_located = Mounted
  /\ BasicScreen.isTracking
       (BasicScreen.run
          [BasicScreen.PressStart;
           BasicScreen.Settle 3 BasicScreen.Watch_opening (Fulfilled ());
           BasicScreen.PressStop] basic_located) = false
  /\ BasicScreen.watches
       (BasicScreen.run
          [BasicScreen.PressStart;
           BasicScreen.Settle 3 BasicScreen.Watch_opening (Fulfilled ());
           BasicScreen.PressStop] basic_located)
     = BasicScreen.watches basic_located ∪ {[ 4%nat ]}.
Proof.
  split; [reflexivity|].
  pose proof (start_stop_leaves_the_watch basic_located eq_refl eq_refl)
    as (_ & H & _).
  exact (H eq_refl).
Defined.
